(** * cold_email.py: a shallow embedding and its checked properties

    The program is a linear pipeline: fetch one page, extract a few fields
    from the parsed markup, fill a prompt template, call one of two
    text-generation APIs, parse the JSON answer, render it.

    Conventions of the embedding.
    - A Python [str] is a Rocq [string]; each character stands for one code
      point, and the character functions ([isspace], [lower_char]) are the
      Python ones on the code points 0..255.
    - A Python exception is a value of [exn]; code that may raise returns a
      [result].
    - A [dict] is a [gmap] with string keys.
    - What lives outside the repository (the network, the markup parser of
      bs4, the JSON decoder, the two API clients, the process environment,
      the iteration order of a [set]) is a field of the class [World];
      the tree queries of bs4 and the string methods are
      modelled after their documented behaviour. *)

From Stdlib Require Import Ascii String ZArith Lia.
From stdpp Require Import base strings list gmap pretty.

Open Scope string_scope.
Open Scope list_scope.

#[local] Set Warnings "-register-all,-clear-no-such-hyp".
#[local] Set Default Proof Using "Type".
(* stdpp keeps [simpl] from unfolding the append of strings; the literals
   of this file are meant to compute. *)
#[local] Arguments String.append _%_string_scope _%_string_scope : simpl nomatch.

(** ** Python strings *)

(** The double quote character and the newline, for literals that need them. *)
Definition dquote : string := String "034"%char EmptyString.
Definition nl : string := String "010"%char EmptyString.
Definition quoted (s : string) : string := dquote +:+ s +:+ dquote.

(** [c.isspace()] for a code point below 256. *)
Definition isspace (c : ascii) : bool :=
  let n := nat_of_ascii c in
  (((9 <=? n) && (n <=? 13)) || ((28 <=? n) && (n <=? 31))
   || (n =? 32) || (n =? 133) || (n =? 160))%nat.

(** [c.lower()] for a code point below 256. *)
Definition lower_char (c : ascii) : ascii :=
  let n := nat_of_ascii c in
  if (((65 <=? n) && (n <=? 90))
      || ((192 <=? n) && (n <=? 222) && negb (n =? 215)))%nat
  then ascii_of_nat (n + 32) else c.

(** [s.lower()] *)
Fixpoint str_lower (s : string) : string :=
  match s with
  | EmptyString => EmptyString
  | String c r => String (lower_char c) (str_lower r)
  end.

(** [s.startswith(p)] *)
Fixpoint startswith (p s : string) : bool :=
  match p, s with
  | EmptyString, _ => true
  | String _ _, EmptyString => false
  | String a p', String b s' => if Ascii.eqb a b then startswith p' s' else false
  end.

(** [sub in s] *)
Fixpoint str_contains (sub s : string) : bool :=
  if startswith sub s then true
  else match s with
       | EmptyString => false
       | String _ r => str_contains sub r
       end.

(** [s[:n]] for [n >= 0] *)
Fixpoint str_take (n : nat) (s : string) : string :=
  match n, s with
  | S k, String c r => String c (str_take k r)
  | _, _ => EmptyString
  end.

(** [s * n] *)
Fixpoint str_repeat (s : string) (n : nat) : string :=
  match n with
  | O => EmptyString
  | S k => s +:+ str_repeat s k
  end.

(** [sep.join(parts)] for a list of strings *)
Fixpoint str_join (sep : string) (parts : list string) : string :=
  match parts with
  | [] => EmptyString
  | [x] => x
  | x :: rest => x +:+ sep +:+ str_join sep rest
  end.

(** The scan behind [split] and [replace] with a non-empty [sep]: left to
    right, occurrences do not overlap.  [skip] counts the characters of an
    occurrence still to pass over, [cur] is the piece being collected. *)
Fixpoint split_scan (sep s : string) (skip : nat) (cur : string) : list string :=
  match s with
  | EmptyString => [cur]
  | String c r =>
      match skip with
      | S k => split_scan sep r k cur
      | O => if startswith sep s
             then cur :: split_scan sep r (String.length sep - 1) EmptyString
             else split_scan sep r 0 (cur +:+ String c EmptyString)
      end
  end.

(** [s.lstrip()], [s.rstrip()], [s.strip()] *)
Fixpoint str_lstrip (s : string) : string :=
  match s with
  | String c r => if isspace c then str_lstrip r else s
  | EmptyString => EmptyString
  end.

Fixpoint str_rstrip (s : string) : string :=
  match s with
  | EmptyString => EmptyString
  | String c r =>
      match str_rstrip r with
      | EmptyString => if isspace c then EmptyString else String c EmptyString
      | r' => String c r'
      end
  end.

Definition str_strip (s : string) : string := str_rstrip (str_lstrip s).

(** Python truth value of a string and of an optional string. *)
Definition str_truthy (s : string) : bool := negb (String.eqb s EmptyString).

Definition opt_truthy (o : option string) : bool :=
  match o with
  | Some s => str_truthy s
  | None => false
  end.

(** [o or d] where [o] is an [Optional[str]] *)
Definition or_else (o : option string) (d : string) : string :=
  match o with
  | Some s => if str_truthy s then s else d
  | None => d
  end.

(** ** Exceptions

    The exceptions of the program and of its libraries; all of them are
    subclasses of [Exception], which is what the handler in
    [research_website] catches. *)

Inductive exn : Type :=
  | KeyError (key : string)
  | IndexError (msg : string)
  | TypeError (msg : string)
  | ValueError (msg : string)
  | RuntimeError (msg : string)
  (** an exception raised inside a library (requests, bs4, json, an API
      client), with the text [str(e)] gives for it *)
  | LibraryError (cls msg : string).

(** [str(e)].  A [KeyError] prints the [repr] of its key; the keys raised
    in this program are plain words, whose [repr] is the word in single
    quotes. *)
Definition str_exn (e : exn) : string :=
  match e with
  | KeyError k => "'" +:+ k +:+ "'"
  | IndexError m | TypeError m | ValueError m | RuntimeError m => m
  | LibraryError _ m => m
  end.

Inductive result (A : Type) : Type :=
  | Ok (a : A)
  | Raise (e : exn).
Arguments Ok {A} a.
Arguments Raise {A} e.

#[global] Instance result_ret : MRet result := λ A a, Ok a.
#[global] Instance result_bind : MBind result := λ A B f m,
  match m with
  | Ok a => f a
  | Raise e => Raise e
  end.
#[global] Instance result_fmap : FMap result := λ A B f m,
  match m with
  | Ok a => Ok (f a)
  | Raise e => Raise e
  end.

(** [s.split(sep)]: an empty separator is a [ValueError]. *)
Definition str_split (s sep : string) : result (list string) :=
  match sep with
  | EmptyString => Raise (ValueError "empty separator")
  | _ => Ok (split_scan sep s 0 EmptyString)
  end.

(** [s.replace(old, new)].  With an empty [old], Python puts [new] before
    every character and at the end. *)
Fixpoint str_intersperse (new s : string) : string :=
  match s with
  | EmptyString => new
  | String c r => new +:+ String c (str_intersperse new r)
  end.

Definition str_replace (s old new : string) : string :=
  match old with
  | EmptyString => str_intersperse new s
  | _ => str_join new (split_scan old s 0 EmptyString)
  end.

(** [xs[i]] on a list *)
Definition list_getitem {A} (xs : list A) (i : nat) : result A :=
  match xs !! i with
  | Some x => Ok x
  | None => Raise (IndexError "list index out of range")
  end.

(** [d[k]] on a dict *)
Definition dict_getitem {V} (d : gmap string V) (k : string) : result V :=
  match d !! k with
  | Some v => Ok v
  | None => Raise (KeyError k)
  end.

(** [s.split()]: the maximal runs of characters that are not whitespace. *)
Fixpoint words_scan (s cur : string) : list string :=
  match s with
  | EmptyString => if str_truthy cur then [cur] else []
  | String c r =>
      if isspace c
      then (if str_truthy cur then cur :: words_scan r EmptyString
            else words_scan r EmptyString)
      else words_scan r (cur +:+ String c EmptyString)
  end.

Definition str_words (s : string) : list string := words_scan s EmptyString.

(** [template.format] with keyword arguments, for templates whose replacement fields are
    plain keyword names.  One pass, left to right: a doubled brace is a
    literal brace, a field is replaced by its value, and the values are not
    scanned again.  Conversions, format specs, attribute and index lookups
    (a field holding one of the characters [!:.[]) are outside the model and
    reported as a [ValueError]; an empty field asks for a positional
    argument, and none is ever given. *)
Inductive format_state : Type :=
  | Literal
  | AfterOpen
  | InField (name : string)
  | AfterClose.

Definition plain_field_char (c : ascii) : bool :=
  negb (Ascii.eqb c "!" || Ascii.eqb c ":" || Ascii.eqb c "." || Ascii.eqb c "["
        || Ascii.eqb c "{")%char.

Definition format_field (kwargs : gmap string string) (name : string)
  : result string :=
  match name with
  | EmptyString =>
      Raise (IndexError "Replacement index 0 out of range for positional args tuple")
  | _ => dict_getitem kwargs name
  end.

Fixpoint format_scan (kwargs : gmap string string) (st : format_state)
    (s : string) : result string :=
  match s with
  | EmptyString =>
      match st with
      | Literal => Ok EmptyString
      | AfterOpen => Raise (ValueError "Single '{' encountered in format string")
      | InField _ => Raise (ValueError "expected '}' before end of string")
      | AfterClose => Raise (ValueError "Single '}' encountered in format string")
      end
  | String c r =>
      match st with
      | Literal =>
          if Ascii.eqb c "{" then format_scan kwargs AfterOpen r
          else if Ascii.eqb c "}" then format_scan kwargs AfterClose r
          else rest ← format_scan kwargs Literal r; Ok (String c rest)
      | AfterOpen =>
          if Ascii.eqb c "{"
          then rest ← format_scan kwargs Literal r; Ok (String c rest)
          else if Ascii.eqb c "}"
          then v ← format_field kwargs EmptyString;
               rest ← format_scan kwargs Literal r; Ok (v +:+ rest)
          else if plain_field_char c
          then format_scan kwargs (InField (String c EmptyString)) r
          else Raise (ValueError "field syntax outside the model")
      | InField name =>
          if Ascii.eqb c "}"
          then v ← format_field kwargs name;
               rest ← format_scan kwargs Literal r; Ok (v +:+ rest)
          else if plain_field_char c
          then format_scan kwargs (InField (name +:+ String c EmptyString)) r
          else Raise (ValueError "field syntax outside the model")
      | AfterClose =>
          if Ascii.eqb c "}"
          then rest ← format_scan kwargs Literal r; Ok (String c rest)
          else Raise (ValueError "Single '}' encountered in format string")
      end
  end.

Definition str_format (template : string) (kwargs : gmap string string)
  : result string :=
  format_scan kwargs Literal template.

(** ** The data classes *)

Module Prospect.
Record t : Type := mk {
  name : string;
  company : string;
  role : option string;
  email : option string;
  linkedin : option string;
  website : option string;
  company_description : option string;
  recent_news : option string;
  tech_stack : option string;
  pain_points : option string
}.
End Prospect.
Abbreviation Prospect := Prospect.t.

Module EmailConfig.
Record t : Type := mk {
  sender_name : string;
  sender_company : string;
  value_prop : string;
  cta : string;
  tone : string;
  length : string
}.
End EmailConfig.
Abbreviation EmailConfig := EmailConfig.t.

(** ** The parsed page (bs4)

    A page is a forest of tags and strings.  Tag names are as the parser
    stores them (lower case), and an attribute maps to the text of its
    value.  A string is a [NavigableString] proper or an instance of one of
    its subclasses: the parser gives the text inside a [script], [style],
    [template], [rt] or [rp] tag the class that goes with the tag, and
    comments, declarations and the like classes of their own. *)
Inductive string_class : Type :=
  | CData
  | Comment
  | Declaration
  | Doctype
  | ProcessingInstruction
  | Stylesheet
  | Script
  | TemplateString
  | RubyTextString
  | RubyParenthesisString.

#[global] Instance string_class_eq_dec : EqDecision string_class.
Proof. solve_decision. Defined.

Inductive node : Type :=
  | NavigableString (s : string)
  | SpecialString (cls : string_class) (s : string)
  | Tag (name : string) (attrs : gmap string string) (contents : list node).

(** A node followed by its descendants, in document order. *)
Fixpoint self_and_descendants (n : node) : list node :=
  match n with
  | NavigableString _ | SpecialString _ _ => [n]
  | Tag _ _ cs =>
      n :: (fix forest (l : list node) : list node :=
              match l with
              | [] => []
              | c :: r => self_and_descendants c ++ forest r
              end) cs
  end.

(** [soup.descendants] *)
Definition descendants (soup : list node) : list node :=
  flat_map self_and_descendants soup.

Definition tag_named (nm : string) (n : node) : bool :=
  match n with
  | Tag nm' _ _ => String.eqb nm' nm
  | NavigableString _ | SpecialString _ _ => false
  end.

Definition tag_attrs (n : node) : gmap string string :=
  match n with
  | Tag _ a _ => a
  | NavigableString _ | SpecialString _ _ => ∅
  end.

(** [tag[key]] *)
Definition tag_getitem (n : node) (key : string) : result string :=
  dict_getitem (tag_attrs n) key.

(** [soup.find(nm, attrs={key: value})]: the first tag of that name whose
    attribute [key] is exactly [value]. *)
Definition find_with_attr (nm key value : string) (soup : list node)
  : option node :=
  List.find (λ n, tag_named nm n
                  && bool_decide (tag_attrs n !! key = Some value))
            (descendants soup).

(** [soup.find(nm)], which is also what [soup.title] is for [nm = 'title'] *)
Definition find (nm : string) (soup : list node) : option node :=
  List.find (tag_named nm) (descendants soup).

(** [soup.find_all(nm, key=True)]: the tags of that name that have the
    attribute, in document order. *)
Definition find_all_having (nm key : string) (soup : list node) : list node :=
  List.filter (λ n, tag_named nm n && bool_decide (is_Some (tag_attrs n !! key)))
              (descendants soup).

(** [builder.string_containers]: the class of the strings directly inside
    a tag of that name, for the tags that have one. *)
Definition string_container (nm : string) : option string_class :=
  if String.eqb nm "rt" then Some RubyTextString
  else if String.eqb nm "rp" then Some RubyParenthesisString
  else if String.eqb nm "style" then Some Stylesheet
  else if String.eqb nm "script" then Some Script
  else if String.eqb nm "template" then Some TemplateString
  else None.

(** The text of [d] when [d] is a string that [get_text] on a tag named
    [nm] collects: the tag's [interesting_string_types] are the class of its
    container when it is one, and [NavigableString] and [CData] otherwise;
    the class of a string must be one of them exactly. *)
Definition interesting_string (nm : string) (d : node) : option string :=
  match d with
  | Tag _ _ _ => None
  | NavigableString s =>
      match string_container nm with
      | None => Some s
      | Some _ => None
      end
  | SpecialString cls s =>
      match string_container nm with
      | None => if bool_decide (cls = CData) then Some s else None
      | Some c => if bool_decide (cls = c) then Some s else None
      end
  end.

(** [tag.get_text()], also [tag.text]: the interesting strings among the
    descendants of the tag, in document order, put together.  (The text of
    a string is the string.) *)
Definition get_text (n : node) : string :=
  match n with
  | NavigableString s | SpecialString _ s => s
  | Tag nm _ _ =>
      foldr (λ d acc, match interesting_string nm d with
                      | Some s => s +:+ acc
                      | None => acc
                      end) EmptyString (self_and_descendants n)
  end.

(** The four shapes of CSS selector the program uses. *)
Inductive selector : Type :=
  | ById (id : string)                      (* #id *)
  | ByClass (cls : string)                  (* .cls *)
  | ByAttrContains (attr value : string)    (* [attr*=value] *)
  | ByType (tag : string).                  (* tag *)

(** The value an attribute selector sees: bs4 keeps [class] as the list of
    its words, which the selector engine joins with single spaces. *)
Definition attr_for_selector (key value : string) : string :=
  if String.eqb key "class" then str_join " " (str_words value) else value.

Definition selector_matches (sel : selector) (n : node) : bool :=
  match n with
  | NavigableString _ | SpecialString _ _ => false
  | Tag nm attrs _ =>
      match sel with
      | ById i => bool_decide (attrs !! "id" = Some i)
      | ByClass c =>
          match attrs !! "class" with
          | Some v => bool_decide (c ∈ str_words v)
          | None => false
          end
      | ByAttrContains a v =>
          match attrs !! a with
          | Some x => str_truthy v && str_contains v (attr_for_selector a x)
          | None => false
          end
      | ByType t => String.eqb nm t
      end
  end.

(** [soup.select_one(sel)]: the first matching tag in document order. *)
Definition select_one (sel : selector) (soup : list node) : option node :=
  List.find (selector_matches sel) (descendants soup).

(** ** Values stored in dictionaries *)

(** What [research_website] stores: [None], a string, or a list of strings. *)
Inductive value : Type :=
  | VNone
  | VStr (s : string)
  | VList (l : list string).

Definition value_truthy (v : value) : bool :=
  match v with
  | VNone => false
  | VStr s => str_truthy s
  | VList l => negb (bool_decide (l = []))
  end.

(** What a decoded JSON object holds under a key: a string, or one of the
    scalars null, true, false and an integer.  Floats, arrays and objects
    as values are left out; in [format_email] they would behave as the
    other values that are not strings do, with their own [str] and type
    name. *)
Inductive pyval : Type :=
  | PyNone
  | PyBool (b : bool)
  | PyInt (n : Z)
  | PyStr (s : string).

(** [str(v)] *)
Definition py_str (v : pyval) : string :=
  match v with
  | PyNone => "None"
  | PyBool true => "True"
  | PyBool false => "False"
  | PyInt n => pretty n
  | PyStr s => s
  end.

(** [type(v).__name__] *)
Definition type_name (v : pyval) : string :=
  match v with
  | PyNone => "NoneType"
  | PyBool _ => "bool"
  | PyInt _ => "int"
  | PyStr _ => "str"
  end.

(** [sep.join(items)] when the items are arbitrary objects: the first one
    that is not a string is a [TypeError] naming its position and type. *)
Fixpoint join_items (sep : string) (i : nat) (items : list pyval)
  : result string :=
  match items with
  | [] => Ok EmptyString
  | v :: rest =>
      match v with
      | PyStr s =>
          tail ← join_items sep (S i) rest;
          Ok (match rest with
              | [] => s
              | _ => s +:+ sep +:+ tail
              end)
      | _ => Raise (TypeError ("sequence item " +:+ pretty i
                               +:+ ": expected str instance, "
                               +:+ type_name v +:+ " found"))
      end
  end.

(** ** HTTP *)

Record Request : Type := {
  req_method : string;
  req_url : string;
  req_timeout : option Z;               (* seconds *)
  req_headers : gmap string string
}.

Record Response : Type := { text : string }.

Record Session : Type := { headers : gmap string string }.

Record ProspectResearcher : Type := { session : Session }.

Record ColdEmailGenerator : Type := { provider : string }.

(** ** The two texts the program produces, written out

    These are the texts as a reader of the source expects them, slot by
    slot; the theorems below show that the code produces them. *)

(** The prompt, with a value in each slot of the template. *)
Definition filled_prompt
    (name company role company_description tech_stack : string)
    (sender_name sender_company value_prop cta tone length : string) : string :=
  str_join nl
    [ "Generate a cold email with these requirements:";
      EmptyString;
      "PROSPECT:";
      "- Name: " +:+ name;
      "- Company: " +:+ company;
      "- Role: " +:+ role;
      "- Company Description: " +:+ company_description;
      "- Tech Stack: " +:+ tech_stack;
      EmptyString;
      "SENDER:";
      "- Name: " +:+ sender_name;
      "- Company: " +:+ sender_company;
      "- Value Proposition: " +:+ value_prop;
      "- Desired CTA: " +:+ cta;
      EmptyString;
      "STYLE:";
      "- Tone: " +:+ tone;
      "- Length: " +:+ length +:+ " (short=3-4 sentences, medium=5-6 sentences)";
      EmptyString;
      "RULES:";
      "1. Personalize based on prospect's company/role";
      "2. Lead with value, not features";
      "3. One clear call-to-action";
      "4. No generic flattery (" +:+ dquote +:+ "I love your company!" +:+ dquote +:+ ")";
      "5. Sound human, not templated";
      "6. Subject line should create curiosity";
      EmptyString;
      "Return JSON:";
      "{";
      "    " +:+ dquote +:+ "subject" +:+ dquote +:+ ": " +:+ dquote
        +:+ "Email subject line" +:+ dquote +:+ ",";
      "    " +:+ dquote +:+ "body" +:+ dquote +:+ ": " +:+ dquote
        +:+ "Full email body" +:+ dquote +:+ ",";
      "    " +:+ dquote +:+ "follow_up" +:+ dquote +:+ ": " +:+ dquote
        +:+ "Follow-up email if no response (shorter)" +:+ dquote;
      "}" ].

(** The displayed email: subject line, body and follow-up section. *)
Definition rendered_email (name address subject body follow_up : string)
  : string :=
  str_join nl
    [ "============================================================";
      "TO: " +:+ name +:+ " <" +:+ address +:+ ">";
      "SUBJECT: " +:+ subject;
      "============================================================";
      EmptyString;
      body;
      EmptyString;
      "------------------------------------------------------------";
      "FOLLOW-UP (if no response after 3-5 days):";
      "------------------------------------------------------------";
      follow_up;
      EmptyString ].

(** What is known of [list(set(l))]: it lists the members of [l], each
    once. *)
Definition enumerates_sets (f : list string → list string) : Prop :=
  ∀ l, NoDup (f l) ∧ ∀ x, x ∈ f l ↔ x ∈ l.

(** ** The world outside the repository *)

Class World : Type := {
  (** [list(set(l))]: some enumeration of the distinct members of [l]; the
      order is the interpreter's (see [enumerates_sets]) *)
  list_of_set : list string → list string;
  (** the headers a fresh [requests.Session()] carries *)
  requests_default_headers : gmap string string;
  (** what a request is answered with: a response, or an exception *)
  network : Request → result Response;
  (** [BeautifulSoup(markup, 'html.parser')] *)
  html_parser : string → result (list node);
  (** [import openai] and [import anthropic] succeeded *)
  HAS_OPENAI : bool;
  HAS_ANTHROPIC : bool;
  (** [os.environ] *)
  environ : gmap string string;
  (** the decoded JSON and [json.loads] *)
  JSON : Type;
  json_loads : string → result JSON;
  (** the two API calls: model name (and token limit), the user message;
      the answer is the text of each choice, resp. of each content block *)
  openai_chat_completions_create : string → string → result (list string);
  anthropic_messages_create : string → Z → string → result (list string)
}.

(** ** The program *)

Section ColdEmail.

Context {W : World}.

(** *** ProspectResearcher *)

Definition ProspectResearcher__init__ : ProspectResearcher :=
  {| session :=
       {| headers := <["User-Agent" := "Mozilla/5.0 (compatible; EmailResearch/1.0)"]>
                       requests_default_headers |} |}.

(** The request a call [session.get(url, timeout=t)] asks for. *)
Definition get_request (s : Session) (url : string) (timeout : Z) : Request :=
  {| req_method := "GET"; req_url := url;
     req_timeout := Some timeout; req_headers := headers s |}.

(** [session.get(url, timeout=t)]: the request is handed to the library
    and recorded in the log.  The log holds the requests the program asks
    for; what the library does to serve one (validating the URL, following
    redirects) is not the program's. *)
Definition session_get (s : Session) (url : string) (timeout : Z)
    (log : list Request) : result Response * list Request :=
  let req := get_request s url timeout in
  (network req, log ++ [req]).

(** The selectors tried for the about text, in the order of the source:
    [#about], [.about], [[class*=about]] (the value quoted), [section]. *)
Definition about_selectors : list selector :=
  [ById "about"; ByClass "about"; ByAttrContains "class" "about"; ByType "section"].

(** [elem.get_text()[:500]] *)
Definition about_text (elem : node) : string := str_take 500 (get_text elem).

(** The loop over the selectors. *)
Fixpoint about_loop (soup : list node) (sels : list selector) : value :=
  match sels with
  | [] => VNone
  | sel :: rest =>
      match select_one sel soup with
      | Some elem =>
          let text := about_text elem in
          if (100 <? String.length text)%nat then VStr text
          else about_loop soup rest
      | None => about_loop soup rest
      end
  end.

(** The names the six tests can add. *)
Definition tech_vocabulary : list string :=
  ["React"; "Vue"; "Angular"; "Stripe"; "Intercom"; "HubSpot"].

(** The six tests on one lowered [src], in the order of the source. *)
Definition hints_of_src (src : string) : list string :=
  (if str_contains "react" src then ["React"] else [])
  ++ (if str_contains "vue" src then ["Vue"] else [])
  ++ (if str_contains "angular" src then ["Angular"] else [])
  ++ (if str_contains "stripe" src then ["Stripe"] else [])
  ++ (if str_contains "intercom" src then ["Intercom"] else [])
  ++ (if str_contains "hubspot" src then ["HubSpot"] else []).

(** The loop over the script tags. *)
Fixpoint tech_loop (scripts : list node) (tech_hints : list string)
  : result (list string) :=
  match scripts with
  | [] => Ok tech_hints
  | s :: rest =>
      src ← tag_getitem s "src";
      tech_loop rest (tech_hints ++ hints_of_src (str_lower src))
  end.

(** The dictionary returned at the end of the [try] block. *)
Definition found (description title about tech_hints : value)
  : gmap string value :=
  <["description" := description]>
  (<["title" := title]>
  (<["about" := about]>
  (<["tech_hints" := tech_hints]> ∅))).

(** The statements of the [try] block after the page is parsed. *)
Definition extract (soup : list node) : result (gmap string value) :=
  description ←
    match find_with_attr "meta" "name" "description" soup with
    | Some meta_desc => VStr <$> tag_getitem meta_desc "content"
    | None => Ok VNone
    end;
  let title :=
    match find "title" soup with
    | Some t => VStr (get_text t)
    | None => VNone
    end in
  let about := about_loop soup about_selectors in
  tech_hints ← tech_loop (find_all_having "script" "src" soup) [];
  Ok (found description title about (VList (list_of_set tech_hints))).

(** The [try] block. *)
Definition research_website_try (self : ProspectResearcher) (url : string)
    (log : list Request) : result (gmap string value) * list Request :=
  let '(r, log') := session_get (session self) url 10 log in
  (resp ← r; soup ← html_parser (text resp); extract soup, log').

Definition research_website (self : ProspectResearcher) (url : string)
    (log : list Request) : gmap string value * list Request :=
  let '(r, log') := research_website_try self url log in
  (match r with
   | Ok data => data
   | Raise e => {[ "error" := VStr (str_exn e) ]}
   end, log').

Definition set_company_description (p : Prospect) (d : string) : Prospect :=
  Prospect.mk (Prospect.name p) (Prospect.company p) (Prospect.role p)
    (Prospect.email p) (Prospect.linkedin p) (Prospect.website p)
    (Some d) (Prospect.recent_news p) (Prospect.tech_stack p)
    (Prospect.pain_points p).

Definition set_tech_stack (p : Prospect) (t : string) : Prospect :=
  Prospect.mk (Prospect.name p) (Prospect.company p) (Prospect.role p)
    (Prospect.email p) (Prospect.linkedin p) (Prospect.website p)
    (Prospect.company_description p) (Prospect.recent_news p) (Some t)
    (Prospect.pain_points p).

(** [research] updates the prospect in place and returns it; here the
    updated record is the result.  [research_website] stores a string or
    [None] under [description] and a list under [tech_hints] (see
    [extract_shapes]); the other shapes cannot reach the two assignments. *)
Definition research (self : ProspectResearcher) (prospect : Prospect)
    (log : list Request) : Prospect * list Request :=
  match Prospect.website prospect with
  | Some url =>
      if str_truthy url then
        let '(data, log') := research_website self url log in
        let p1 :=
          match data !! "description" with
          | Some (VStr d) =>
              if str_truthy d then set_company_description prospect d
              else prospect
          | _ => prospect
          end in
        let p2 :=
          match data !! "tech_hints" with
          | Some (VList hints) =>
              if value_truthy (VList hints)
              then set_tech_stack p1 (str_join ", " hints)
              else p1
          | _ => p1
          end in
        (p2, log')
      else (prospect, log)
  | None => (prospect, log)
  end.

(** *** ColdEmailGenerator *)

Definition TEMPLATE_PROMPT : string :=
  str_join nl
    [ "Generate a cold email with these requirements:";
      EmptyString;
      "PROSPECT:";
      "- Name: {name}";
      "- Company: {company}";
      "- Role: {role}";
      "- Company Description: {company_description}";
      "- Tech Stack: {tech_stack}";
      EmptyString;
      "SENDER:";
      "- Name: {sender_name}";
      "- Company: {sender_company}";
      "- Value Proposition: {value_prop}";
      "- Desired CTA: {cta}";
      EmptyString;
      "STYLE:";
      "- Tone: {tone}";
      "- Length: {length} (short=3-4 sentences, medium=5-6 sentences)";
      EmptyString;
      "RULES:";
      "1. Personalize based on prospect's company/role";
      "2. Lead with value, not features";
      "3. One clear call-to-action";
      "4. No generic flattery (" +:+ quoted "I love your company!" +:+ ")";
      "5. Sound human, not templated";
      "6. Subject line should create curiosity";
      EmptyString;
      "Return JSON:";
      "{{";
      "    " +:+ quoted "subject" +:+ ": " +:+ quoted "Email subject line" +:+ ",";
      "    " +:+ quoted "body" +:+ ": " +:+ quoted "Full email body" +:+ ",";
      "    " +:+ quoted "follow_up" +:+ ": "
        +:+ quoted "Follow-up email if no response (shorter)";
      "}}" ].

(** [os.getenv(key)] *)
Definition getenv (key : string) : option string := environ !! key.

Definition _select_provider (preferred : string) : result string :=
  if String.eqb preferred "openai"
     || (String.eqb preferred "auto" && HAS_OPENAI
         && opt_truthy (getenv "OPENAI_API_KEY"))
  then Ok "openai"
  else if String.eqb preferred "anthropic"
     || (String.eqb preferred "auto" && HAS_ANTHROPIC
         && opt_truthy (getenv "ANTHROPIC_API_KEY"))
  then Ok "anthropic"
  else Raise (RuntimeError "No AI provider. Set OPENAI_API_KEY or ANTHROPIC_API_KEY").

Definition ColdEmailGenerator__init__ (preferred : string)
  : result ColdEmailGenerator :=
  p ← _select_provider preferred; Ok {| provider := p |}.

Definition _generate_openai (prompt : string) : result JSON :=
  choices ← openai_chat_completions_create "gpt-4o-mini" prompt;
  content ← list_getitem choices 0;
  json_loads content.

(** The lines of [_generate_anthropic] between the API call and
    [json.loads]: what is handed to the decoder. *)
Definition unwrap_fence (content : string) : result string :=
  if str_contains "```" content then
    parts ← str_split content "```";
    inner ← list_getitem parts 1;
    Ok (str_strip (str_replace inner "json" EmptyString))
  else Ok content.

Definition _generate_anthropic (prompt : string) : result JSON :=
  blocks ← anthropic_messages_create "claude-3-haiku-20240307" 2048
             (prompt +:+ nl +:+ nl +:+ "Respond with JSON only.");
  content ← list_getitem blocks 0;
  content ← unwrap_fence content;
  json_loads content.

(** The keyword arguments of the [format] call in [generate]. *)
Definition prompt_kwargs (prospect : Prospect) (config : EmailConfig)
  : gmap string string :=
  <["name" := Prospect.name prospect]>
  (<["company" := Prospect.company prospect]>
  (<["role" := or_else (Prospect.role prospect) "Unknown"]>
  (<["company_description" :=
       or_else (Prospect.company_description prospect) "Unknown"]>
  (<["tech_stack" := or_else (Prospect.tech_stack prospect) "Unknown"]>
  (<["sender_name" := EmailConfig.sender_name config]>
  (<["sender_company" := EmailConfig.sender_company config]>
  (<["value_prop" := EmailConfig.value_prop config]>
  (<["cta" := EmailConfig.cta config]>
  (<["tone" := EmailConfig.tone config]>
  (<["length" := EmailConfig.length config]> ∅)))))))))).

Definition generate (self : ColdEmailGenerator) (prospect : Prospect)
    (config : EmailConfig) : result JSON :=
  prompt ← str_format TEMPLATE_PROMPT (prompt_kwargs prospect config);
  if String.eqb (provider self) "openai" then _generate_openai prompt
  else _generate_anthropic prompt.

(** *** format_email *)

Definition format_email (email : gmap string pyval) (prospect : Prospect)
  : result string :=
  let line1 := str_repeat "=" 60 in
  let line2 := "TO: " +:+ Prospect.name prospect +:+ " <"
               +:+ or_else (Prospect.email prospect) "email@example.com"
               +:+ ">" in
  subject ← dict_getitem email "subject";
  let line3 := "SUBJECT: " +:+ py_str subject in
  body ← dict_getitem email "body";
  let follow_up := default (PyStr "N/A") (email !! "follow_up") in
  join_items nl 0
    [ PyStr line1; PyStr line2; PyStr line3; PyStr (str_repeat "=" 60);
      PyStr EmptyString; body; PyStr EmptyString;
      PyStr (str_repeat "-" 60);
      PyStr "FOLLOW-UP (if no response after 3-5 days):";
      PyStr (str_repeat "-" 60); follow_up; PyStr EmptyString ].

End ColdEmail.

(** ** The command line

    [main] after [parser.parse_args()]: the parsed arguments are a record,
    what is printed is collected line by line, and the process ends by
    returning, by [sys.exit], or with an exception nobody caught. *)

Module Args.
Record t : Type := mk {
  name : string;
  company : string;
  role : option string;
  email : option string;
  website : option string;
  sender : string;
  sender_company : string;
  value_prop : string;
  cta : string;
  tone : string;
  length : string;
  json : bool;
  no_research : bool;
  provider : string
}.
End Args.
Abbreviation Args := Args.t.

Inductive exit_status : Type :=
  | Returned
  | Exited (code : Z)
  | Uncaught (e : exn).

(** What a run leaves behind: the texts printed to standard output and to
    standard error (one entry for each [print]), how it ended, and the
    requests it asked for.  The traceback the interpreter prints for an
    uncaught exception is not part of [stderr]. *)
Record Run : Type := {
  stdout : list string;
  stderr : list string;
  status : exit_status;
  requests : list Request
}.

(** How the rest of the program sees a decoded answer. *)
Class Decoded (W : World) : Type := {
  (** the answer as a dictionary, when it is one *)
  as_dict : JSON → option (gmap string pyval);
  (** the message of the [TypeError] that subscripting an answer that is
      no dictionary with a string raises *)
  not_subscriptable : JSON → string;
  (** [json.dumps({'prospect': asdict(prospect), 'email': email}, indent=2)] *)
  dumps_result : Prospect → JSON → string
}.

Section Main.

Context {W : World} {D : Decoded W}.

(** [format_email(email, prospect)] on whatever [generate] returned. *)
Definition format_decoded (email : JSON) (prospect : Prospect)
  : result string :=
  match as_dict email with
  | Some d => format_email d prospect
  | None => Raise (TypeError (not_subscriptable email))
  end.

(** The prospect built from the arguments. *)
Definition prospect_of_args (args : Args) : Prospect :=
  Prospect.mk (Args.name args) (Args.company args) (Args.role args)
    (Args.email args) None (Args.website args) None None None None.

Definition config_of_args (args : Args) : EmailConfig :=
  EmailConfig.mk (Args.sender args) (Args.sender_company args)
    (Args.value_prop args) (Args.cta args) (Args.tone args)
    (Args.length args).

(** The same arguments with [--no-research]. *)
Definition skip_research (args : Args) : Args :=
  Args.mk (Args.name args) (Args.company args) (Args.role args)
    (Args.email args) (Args.website args) (Args.sender args)
    (Args.sender_company args) (Args.value_prop args) (Args.cta args)
    (Args.tone args) (Args.length args) (Args.json args) true
    (Args.provider args).

(** The research step of [main]: the prospect, what went to standard
    error, and the requests asked for. *)
Definition main_research (args : Args)
  : Prospect * list string * list Request :=
  let prospect := prospect_of_args args in
  if opt_truthy (Args.website args) && negb (Args.no_research args) then
    let researcher := ProspectResearcher__init__ in
    let '(prospect, log) := research researcher prospect [] in
    (prospect,
     ["Researching prospect..."]
     ++ match Prospect.company_description prospect with
        | Some d =>
            if str_truthy d
            then ["  Found: " +:+ str_take 80 d +:+ "..."]
            else []
        | None => []
        end,
     log)
  else (prospect, [], []).

Definition main (args : Args) : Run :=
  let '(prospect, err, log) := main_research args in
  let config := config_of_args args in
  match ColdEmailGenerator__init__ (Args.provider args) with
  | Raise e =>
      {| stdout := []; stderr := err ++ ["Error: " +:+ str_exn e];
         status := Exited 1; requests := log |}
  | Ok generator =>
      let err := err ++ ["Generating with " +:+ provider generator +:+ "..."] in
      match generate generator prospect config with
      | Raise e =>
          {| stdout := []; stderr := err ++ ["Error: " +:+ str_exn e];
             status := Exited 1; requests := log |}
      | Ok email =>
          if Args.json args then
            {| stdout := [dumps_result prospect email]; stderr := err;
               status := Returned; requests := log |}
          else
            match format_decoded email prospect with
            | Ok shown =>
                {| stdout := [shown]; stderr := err;
                   status := Returned; requests := log |}
            | Raise e =>
                {| stdout := []; stderr := err;
                   status := Uncaught e; requests := log |}
            end
      end
  end.

End Main.

(** ** Sample inputs

    Concrete worlds, pages and replies on which the theorems below are run. *)

(** A world that answers every request with the markup [markup], which the
    parser reads as [page] (any other markup as an empty document), and in
    which the anthropic API answers every prompt with [reply]; the openai
    API is not reachable, and the decoded JSON is the text handed to the
    decoder. *)
Definition make_world (markup : string) (page : list node) (reply : string)
    (has_openai : bool) (env : gmap string string) : World := {|
  list_of_set := remove_dups;
  requests_default_headers :=
    {[ "User-Agent" := "python-requests/2.31.0"; "Accept" := "*/*" ]};
  network := λ _, Ok {| text := markup |};
  html_parser := λ m, if String.eqb m markup then Ok page else Ok [];
  HAS_OPENAI := has_openai;
  HAS_ANTHROPIC := true;
  environ := env;
  JSON := string;
  json_loads := Ok;
  openai_chat_completions_create :=
    λ _ _, Raise (LibraryError "APIConnectionError" "Connection error.");
  anthropic_messages_create := λ _ _ _, Ok [reply]
|}.

(** The openai package is not installed, and both keys are set. *)
Definition sample_world (markup : string) (page : list node) (reply : string)
  : World :=
  make_world markup page reply false
    {[ "OPENAI_API_KEY" := "sk-test"; "ANTHROPIC_API_KEY" := "sk-ant-test" ]}.

(** Both packages are installed, and [OPENAI_API_KEY] is set to the empty
    string. *)
Definition world_empty_key : World :=
  make_world EmptyString [] EmptyString true
    {[ "OPENAI_API_KEY" := EmptyString; "ANTHROPIC_API_KEY" := "sk-ant-test" ]}.

(** An attribute in markup: the name, the equals sign, the quoted value. *)
Definition attr (key value : string) : string :=
  " " +:+ key +:+ "=" +:+ quoted value.

(** A page whose description meta tag has no [content] attribute. *)
Definition markup_meta_without_content : string :=
  "<html><head><meta" +:+ attr "name" "description" +:+ ">"
  +:+ "<title>Acme Anvils</title></head><body><script"
  +:+ attr "src" "https://js.stripe.com/v3/" +:+ "></script></body></html>".

Definition page_meta_without_content : list node :=
  [ Tag "html" ∅
      [ Tag "head" ∅
          [ Tag "meta" {[ "name" := "description" ]} [];
            Tag "title" ∅ [NavigableString "Acme Anvils"] ];
        Tag "body" ∅
          [ Tag "script" {[ "src" := "https://js.stripe.com/v3/" ]} [] ] ] ].

(** A page with a description, a short [#about] block, a long section and
    three scripts, one of them inline. *)
Definition long_text : string :=
  str_repeat "Acme has made anvils since 1949. " 4.

Definition markup_acme : string :=
  "<html><head><meta" +:+ attr "name" "description"
  +:+ attr "content" "Anvils for every need" +:+ ">"
  +:+ "<title>Acme Anvils</title>"
  +:+ "<script" +:+ attr "src" "https://cdn.example.com/React.min.js"
  +:+ "></script>"
  +:+ "<script" +:+ attr "src" "https://js.stripe.com/v3/" +:+ "></script>"
  +:+ "<script>var reactive = 1;</script></head><body>"
  +:+ "<div" +:+ attr "id" "about" +:+ ">About us</div>"
  +:+ "<section>" +:+ long_text +:+ "</section></body></html>".

Definition page_acme : list node :=
  [ Tag "html" ∅
      [ Tag "head" ∅
          [ Tag "meta" {[ "name" := "description";
                          "content" := "Anvils for every need" ]} [];
            Tag "title" ∅ [NavigableString "Acme Anvils"];
            Tag "script" {[ "src" := "https://cdn.example.com/React.min.js" ]} [];
            Tag "script" {[ "src" := "https://js.stripe.com/v3/" ]} [];
            Tag "script" ∅ [SpecialString Script "var reactive = 1;"] ];
        Tag "body" ∅
          [ Tag "div" {[ "id" := "about" ]} [NavigableString "About us"];
            Tag "section" ∅ [NavigableString long_text] ] ] ].

Definition world_acme : World := sample_world markup_acme page_acme EmptyString.

(** A page whose [#about] element is a script: the text of a script tag is
    its code. *)
Definition js_text : string :=
  str_repeat "track('view', {page: 'about'}); " 5.

Definition markup_script_about : string :=
  "<html><head><title>Acme Anvils</title></head><body><script"
  +:+ attr "id" "about" +:+ ">" +:+ js_text
  +:+ "</script><p>Anvils.</p></body></html>".

Definition page_script_about : list node :=
  [ Tag "html" ∅
      [ Tag "head" ∅ [ Tag "title" ∅ [NavigableString "Acme Anvils"] ];
        Tag "body" ∅
          [ Tag "script" {[ "id" := "about" ]} [SpecialString Script js_text];
            Tag "p" ∅ [NavigableString "Anvils."] ] ] ].

Definition world_script_about : World :=
  sample_world markup_script_about page_script_about EmptyString.

Definition world_meta_without_content : World :=
  sample_world markup_meta_without_content page_meta_without_content
    EmptyString.

Definition acme_url : string := "https://acme.example".

(** A prospect with a website and nothing else, and a sender. *)
Definition prospect_ann : Prospect :=
  Prospect.mk "Ann" "Acme" None None None (Some acme_url)
    None None None None.

Definition config_bob : EmailConfig :=
  EmailConfig.mk "Bob" "Hammers Inc" "lighter hammers" "quick call"
    "professional-friendly" "short".

(** A fenced reply whose subject holds the word json, the JSON text
    inside the fence, and that text with every [json] taken out. *)
Definition reply_json : string :=
  "{" +:+ quoted "subject" +:+ ": " +:+ quoted "Your json pipeline" +:+ ", "
  +:+ quoted "body" +:+ ": " +:+ quoted "Hi Ann" +:+ "}".

Definition reply_fenced : string :=
  "```json" +:+ nl +:+ reply_json +:+ nl +:+ "```".

Definition reply_mangled : string :=
  "{" +:+ quoted "subject" +:+ ": " +:+ quoted "Your  pipeline" +:+ ", "
  +:+ quoted "body" +:+ ": " +:+ quoted "Hi Ann" +:+ "}".

Definition world_fenced_reply : World :=
  sample_world EmptyString [] reply_fenced.

(** Four decoded answers: a complete one, one whose [follow_up] is null,
    one without [follow_up], and one whose body is a number. *)
Definition email_full : gmap string pyval :=
  {[ "subject" := PyStr "Lighter hammers"; "body" := PyStr "Hi Ann";
     "follow_up" := PyStr "Any thoughts?" ]}.

Definition email_null_follow_up : gmap string pyval :=
  {[ "subject" := PyStr "Lighter hammers"; "body" := PyStr "Hi Ann";
     "follow_up" := PyNone ]}.

Definition email_without_follow_up : gmap string pyval :=
  {[ "subject" := PyStr "Lighter hammers"; "body" := PyStr "Hi Ann" ]}.

Definition email_numeric_body : gmap string pyval :=
  {[ "subject" := PyStr "Lighter hammers"; "body" := PyInt 42 ]}.

(** Worlds for runs of [main]: every request is answered by [net], every
    page parses as [page], the anthropic API answers with some text, and
    the decoder reads [decoded] out of it. *)
Definition main_world (net : Request → result Response) (page : list node)
    (env : gmap string string) (decoded : result (gmap string pyval))
  : World := {|
  list_of_set := remove_dups;
  requests_default_headers :=
    {[ "User-Agent" := "python-requests/2.31.0"; "Accept" := "*/*" ]};
  network := net;
  html_parser := λ _, Ok page;
  HAS_OPENAI := false;
  HAS_ANTHROPIC := true;
  environ := env;
  JSON := gmap string pyval;
  json_loads := λ _, decoded;
  openai_chat_completions_create :=
    λ _ _, Raise (LibraryError "APIConnectionError" "Connection error.");
  anthropic_messages_create := λ _ _ _, Ok ["{...}"]
|}.

Definition dict_decoded (W : World) (view : JSON → gmap string pyval)
  : Decoded W := {|
  as_dict := λ j, Some (view j);
  not_subscriptable := λ _, "'NoneType' object is not subscriptable";
  dumps_result := λ _ _, "{...}"
|}.

Definition key_set : gmap string string :=
  {[ "ANTHROPIC_API_KEY" := "sk-ant-test" ]}.

(** The site is down. *)
Definition offline : Request → result Response :=
  λ _, Raise (LibraryError "ConnectionError" "Connection refused").

Definition online : Request → result Response :=
  λ _, Ok {| text := markup_acme |}.

Definition world_offline : World :=
  main_world offline [] key_set (Ok email_full).

Definition world_online : World :=
  main_world online page_acme key_set (Ok email_full).

(** No key is set. *)
Definition world_no_key : World :=
  main_world online page_acme ∅ (Ok email_full).

(** The model's answer has no body. *)
Definition email_without_body : gmap string pyval :=
  {[ "subject" := PyStr "Lighter hammers" ]}.

Definition world_no_body : World :=
  main_world online page_acme key_set (Ok email_without_body).

Definition args_ann : Args :=
  Args.mk "Ann" "Acme" None None (Some acme_url) "Bob" "Hammers Inc"
    "lighter hammers" "quick call" "professional-friendly" "short"
    false false "auto".

Definition args_ann_json : Args :=
  Args.mk "Ann" "Acme" None None (Some acme_url) "Bob" "Hammers Inc"
    "lighter hammers" "quick call" "professional-friendly" "short"
    true false "auto".

Definition args_ann_no_research : Args :=
  Args.mk "Ann" "Acme" None None (Some acme_url) "Bob" "Hammers Inc"
    "lighter hammers" "quick call" "professional-friendly" "short"
    false true "auto".

Definition decoded_online : Decoded world_online :=
  dict_decoded world_online id.
Definition decoded_offline : Decoded world_offline :=
  dict_decoded world_offline id.
Definition decoded_no_key : Decoded world_no_key :=
  dict_decoded world_no_key id.
Definition decoded_no_body : Decoded world_no_body :=
  dict_decoded world_no_body id.

(** A reply with talk around the fenced block, and one cut short inside
    the block. *)
Definition reply_plain : string :=
  "{" +:+ quoted "subject" +:+ ": " +:+ quoted "Lighter hammers" +:+ ", "
  +:+ quoted "body" +:+ ": " +:+ quoted "Hi Ann" +:+ "}".

Definition talk_before : string := "Here is the email:" +:+ nl.
Definition talk_after : string := nl +:+ "Let me know if you want changes.".

Definition reply_chatty : string :=
  talk_before +:+ "```" +:+ (nl +:+ reply_plain +:+ nl) +:+ "```"
  +:+ talk_after.

Definition reply_cut_short : string :=
  "```" +:+ ("json" +:+ nl +:+ "{" +:+ quoted "subject" +:+ ": "
             +:+ quoted "Lighter ham").

(** A prospect whose optional fields are empty strings, and one that
    differs from [prospect_ann] in the fields [format_email] does not read. *)
Definition prospect_blank : Prospect :=
  Prospect.mk "Ann" "Acme" (Some EmptyString) (Some EmptyString) None None
    (Some EmptyString) None (Some EmptyString) None.

Definition prospect_ann_elsewhere : Prospect :=
  Prospect.mk "Ann" "Anvils Ltd" (Some "CTO") None (Some "in/ann") None
    (Some "Anvils") None (Some "React") None.

(** * Properties *)

Section Properties.

Context {W : World}.

(** ** Strings *)

Lemma startswith_spec (p s : string) :
  startswith p s = true ↔ ∃ r, s = p +:+ r.
Proof.
  revert s. induction p as [|a p IH]; intros s; simpl.
  - split; [intros _; by exists s | done].
  - destruct s as [|b s].
    + split; [done | intros [r Hr]; discriminate].
    + destruct (Ascii.eqb_spec a b) as [->|Hne].
      * rewrite IH. split; intros [r Hr]; exists r; simpl in *; congruence.
      * split; [done | intros [r Hr]; simpl in Hr; congruence].
Qed.

(** [sub in s] holds exactly when [s] is some text, [sub], some text. *)
Lemma str_contains_spec (sub s : string) :
  str_contains sub s = true ↔ ∃ pre post, s = pre +:+ sub +:+ post.
Proof.
  induction s as [|c s IH]; simpl.
  - destruct (startswith sub EmptyString) eqn:E.
    + apply startswith_spec in E as [r Hr].
      split; [intros _; by exists EmptyString, r | done].
    + split; [done | intros ([|??] & post & H); simpl in H].
      * assert (startswith sub EmptyString = true) as E'
          by (apply startswith_spec; eauto).
        congruence.
      * discriminate.
  - destruct (startswith sub (String c s)) eqn:E.
    + apply startswith_spec in E as [r Hr].
      split; [intros _; by exists EmptyString, r | done].
    + rewrite IH. split.
      * intros (pre & post & ->). by exists (String c pre), post.
      * intros ([|c' pre] & post & H); simpl in H.
        -- assert (startswith sub (String c s) = true) as E'
             by (apply startswith_spec; eauto).
           congruence.
        -- injection H as -> ->. eauto.
Qed.

Lemma str_take_length (n : nat) (s : string) :
  (String.length (str_take n s) ≤ n)%nat.
Proof.
  revert s. induction n as [|n IH]; intros [|c s]; simpl; try lia.
  specialize (IH s). lia.
Qed.

Lemma str_truthy_spec (s : string) : str_truthy s = true ↔ s ≠ EmptyString.
Proof.
  unfold str_truthy. destruct (String.eqb_spec s EmptyString); naive_solver.
Qed.

Lemma opt_truthy_spec (o : option string) :
  opt_truthy o = true ↔ ∃ k, o = Some k ∧ k ≠ EmptyString.
Proof.
  destruct o as [k|]; simpl.
  - rewrite str_truthy_spec. naive_solver.
  - naive_solver.
Qed.

Lemma or_else_None (d : string) : or_else None d = d.
Proof. done. Qed.

Lemma or_else_Some (s d : string) : s ≠ EmptyString → or_else (Some s) d = s.
Proof. intros H. simpl. by apply str_truthy_spec in H as ->. Qed.

(** ** Provider selection *)

(** Turns [b = true ↔ P], with [b] known, into [P] or [¬ P]. *)
Ltac settle_ready H :=
  match type of H with
  | true = true ↔ ?P => assert P by (by apply H); clear H
  | false = true ↔ ?P =>
      assert (¬ P) by (let HP := fresh in intros HP; apply H in HP;
                       discriminate); clear H
  end.

(** C2, as amended.  An explicit [openai] or [anthropic] is returned as it
    is, whatever the environment.  With [auto], the answer is [openai]
    exactly when the openai package was imported and [OPENAI_API_KEY] is set
    to a non-empty value; otherwise [anthropic] exactly when the anthropic
    package was imported and [ANTHROPIC_API_KEY] is set to a non-empty
    value; otherwise a [RuntimeError] is raised. *)
Theorem select_provider_spec :
  let openai_ready :=
    HAS_OPENAI = true
    ∧ ∃ k, environ !! "OPENAI_API_KEY" = Some k ∧ k ≠ EmptyString in
  let anthropic_ready :=
    HAS_ANTHROPIC = true
    ∧ ∃ k, environ !! "ANTHROPIC_API_KEY" = Some k ∧ k ≠ EmptyString in
  _select_provider "openai" = Ok "openai"
  ∧ _select_provider "anthropic" = Ok "anthropic"
  ∧ (_select_provider "auto" = Ok "openai" ↔ openai_ready)
  ∧ (_select_provider "auto" = Ok "anthropic"
     ↔ ¬ openai_ready ∧ anthropic_ready)
  ∧ (_select_provider "auto"
       = Raise (RuntimeError "No AI provider. Set OPENAI_API_KEY or ANTHROPIC_API_KEY")
     ↔ ¬ openai_ready ∧ ¬ anthropic_ready)
  ∧ (∀ e, _select_provider "auto" = Raise e →
       e = RuntimeError "No AI provider. Set OPENAI_API_KEY or ANTHROPIC_API_KEY").
Proof.
  intros openai_ready anthropic_ready.
  assert (HAS_OPENAI && opt_truthy (getenv "OPENAI_API_KEY") = true
          ↔ openai_ready) as Ho.
  { rewrite andb_true_iff, opt_truthy_spec. done. }
  assert (HAS_ANTHROPIC && opt_truthy (getenv "ANTHROPIC_API_KEY") = true
          ↔ anthropic_ready) as Ha.
  { rewrite andb_true_iff, opt_truthy_spec. done. }
  clearbody openai_ready anthropic_ready.
  unfold _select_provider. simpl.
  destruct (HAS_OPENAI && opt_truthy (getenv "OPENAI_API_KEY")) eqn:Eo;
    destruct (HAS_ANTHROPIC && opt_truthy (getenv "ANTHROPIC_API_KEY")) eqn:Ea;
    simpl; settle_ready Ho; settle_ready Ha.
  all: repeat apply conj; try reflexivity.
  all: intros; first [tauto | congruence].
Qed.

(** ** The request *)

(** C7.  For every URL, one call of [research_website] on a researcher
    made by [__init__] asks for exactly one request: a GET for that URL,
    with a timeout of 10 seconds, through the session whose User-Agent
    header is the fixed string. *)
Theorem research_website_one_request (url : string) (log : list Request) :
  ∃ req,
    (research_website ProspectResearcher__init__ url log).2 = log ++ [req]
    ∧ req_method req = "GET"
    ∧ req_url req = url
    ∧ req_timeout req = Some 10%Z
    ∧ req_headers req !! "User-Agent"
      = Some "Mozilla/5.0 (compatible; EmailResearch/1.0)"
    ∧ req_headers req = headers (session ProspectResearcher__init__).
Proof.
  eexists. unfold research_website, research_website_try, session_get.
  simpl. repeat split. apply lookup_insert_eq.
Qed.

(** ** Errors as values *)

Lemma tech_loop_ok (scripts : list node) (acc : list string) :
  Forall (λ n, is_Some (tag_attrs n !! "src")) scripts →
  ∃ hints, tech_loop scripts acc = Ok hints.
Proof.
  intros H. revert acc. induction H as [|n scripts [src Hsrc] _ IH]; intros acc.
  - by eexists.
  - simpl. unfold tag_getitem, dict_getitem. rewrite Hsrc. simpl. apply IH.
Qed.

Lemma find_all_having_Forall (nm key : string) (soup : list node) :
  Forall (λ n, is_Some (tag_attrs n !! key)) (find_all_having nm key soup).
Proof.
  apply Forall_forall. intros n Hn. apply list_elem_of_In in Hn.
  apply filter_In in Hn as [_ Hn].
  apply andb_true_iff in Hn as [_ Hn]. by apply bool_decide_eq_true in Hn.
Qed.


Lemma found_lookup (d t a h : value) :
  found d t a h !! "description" = Some d
  ∧ found d t a h !! "title" = Some t
  ∧ found d t a h !! "about" = Some a
  ∧ found d t a h !! "tech_hints" = Some h
  ∧ found d t a h !! "error" = None.
Proof. unfold found. repeat split; by simplify_map_eq. Qed.

#[local] Opaque found.

(** The loop over the scripts cannot raise: [find_all] kept the tags that
    have a [src]. *)
Lemma tech_loop_scripts (soup : list node) :
  ∃ hints, tech_loop (find_all_having "script" "src" soup) [] = Ok hints.
Proof. apply tech_loop_ok, find_all_having_Forall. Qed.

(** What [extract] returns, step by step. *)
Lemma extract_eq (soup : list node) :
  ∃ hints,
    tech_loop (find_all_having "script" "src" soup) [] = Ok hints
    ∧ extract soup
      = match find_with_attr "meta" "name" "description" soup with
        | Some meta_desc =>
            match tag_attrs meta_desc !! "content" with
            | Some c =>
                Ok (found (VStr c)
                      (match find "title" soup with
                       | Some t => VStr (get_text t)
                       | None => VNone
                       end)
                      (about_loop soup about_selectors)
                      (VList (list_of_set hints)))
            | None => Raise (KeyError "content")
            end
        | None =>
            Ok (found VNone
                  (match find "title" soup with
                   | Some t => VStr (get_text t)
                   | None => VNone
                   end)
                  (about_loop soup about_selectors)
                  (VList (list_of_set hints)))
        end.
Proof.
  destruct (tech_loop_scripts soup) as [hints Hh]. exists hints.
  split; [done|]. unfold extract. rewrite Hh.
  destruct (find_with_attr "meta" "name" "description" soup) as [m|]; [|done].
  unfold tag_getitem, dict_getitem.
  by destruct (tag_attrs m !! "content").
Qed.



(** ** The prompt *)

Lemma str_app_assoc (a b c : string) : (a +:+ b) +:+ c = a +:+ (b +:+ c).
Proof. induction a as [|x a IH]; simpl; [done | by rewrite IH]. Qed.

(** Formatting the template puts each keyword argument in its slot and
    turns the doubled braces into single ones. *)
Lemma format_TEMPLATE_PROMPT
    (name company role company_description tech_stack : string)
    (sender_name sender_company value_prop cta tone length : string) :
  str_format TEMPLATE_PROMPT
    (<["name" := name]>
     (<["company" := company]>
     (<["role" := role]>
     (<["company_description" := company_description]>
     (<["tech_stack" := tech_stack]>
     (<["sender_name" := sender_name]>
     (<["sender_company" := sender_company]>
     (<["value_prop" := value_prop]>
     (<["cta" := cta]>
     (<["tone" := tone]>
     (<["length" := length]> ∅)))))))))))
  = Ok (filled_prompt name company role company_description tech_stack
          sender_name sender_company value_prop cta tone length).
Proof.
  vm_compute. repeat (f_equal; []).
  (* the one line with text after its slot: the two sides differ by the
     bracketing of an append *)
  match goal with
  | |- _ = ?f (?f ?a ?b) ?c => exact (eq_sym (str_app_assoc a b c))
  end.
Qed.

(** C3.  [generate] sends the provider the template filled with the
    prospect's name, company, role, company description and tech stack and
    the sender's six fields; a missing (None) role, company description or
    tech stack appears as [Unknown], a non-empty one as it is. *)
Theorem generate_fills_template (self : ColdEmailGenerator)
    (prospect : Prospect) (config : EmailConfig) :
  ∃ role company_description tech_stack,
    let prompt :=
      filled_prompt (Prospect.name prospect) (Prospect.company prospect)
        role company_description tech_stack
        (EmailConfig.sender_name config) (EmailConfig.sender_company config)
        (EmailConfig.value_prop config) (EmailConfig.cta config)
        (EmailConfig.tone config) (EmailConfig.length config) in
    str_format TEMPLATE_PROMPT (prompt_kwargs prospect config) = Ok prompt
    ∧ generate self prospect config
      = (if String.eqb (provider self) "openai" then _generate_openai prompt
         else _generate_anthropic prompt)
    ∧ (Prospect.role prospect = None → role = "Unknown")
    ∧ (Prospect.company_description prospect = None →
       company_description = "Unknown")
    ∧ (Prospect.tech_stack prospect = None → tech_stack = "Unknown")
    ∧ (∀ s, Prospect.role prospect = Some s → s ≠ EmptyString → role = s)
    ∧ (∀ s, Prospect.company_description prospect = Some s →
            s ≠ EmptyString → company_description = s)
    ∧ (∀ s, Prospect.tech_stack prospect = Some s → s ≠ EmptyString →
            tech_stack = s).
Proof.
  exists (or_else (Prospect.role prospect) "Unknown"),
         (or_else (Prospect.company_description prospect) "Unknown"),
         (or_else (Prospect.tech_stack prospect) "Unknown").
  intros prompt.
  assert (str_format TEMPLATE_PROMPT (prompt_kwargs prospect config) = Ok prompt)
    as Hfmt by (unfold prompt_kwargs; apply format_TEMPLATE_PROMPT).
  split; [exact Hfmt|]. split.
  { unfold generate. rewrite Hfmt. done. }
  repeat split.
  1-3: by intros ->.
  all: intros s -> Hs; by apply or_else_Some.
Qed.

(** ** The displayed email *)

Lemma join_items_strings (sep : string) (i : nat) (parts : list string) :
  join_items sep i (PyStr <$> parts) = Ok (str_join sep parts).
Proof.
  revert i. induction parts as [|x parts IH]; intros i; [done|].
  simpl. rewrite IH. simpl. by destruct parts.
Qed.

(** Python stops at the first item that is not a string. *)
Lemma join_items_not_str (sep : string) (i : nat) (before : list string)
    (v : pyval) (after : list pyval) :
  (∀ s, v ≠ PyStr s) →
  ∃ msg, join_items sep i ((PyStr <$> before) ++ v :: after)
         = Raise (TypeError msg).
Proof.
  intros Hv. revert i. induction before as [|x before IH]; intros i; simpl.
  - destruct v; try (by eexists). by destruct (Hv s).
  - destruct (IH (S i)) as [msg Hmsg]. exists msg.
    change ((tail ← join_items sep (S i) ((PyStr <$> before) ++ v :: after);
             Ok (match (PyStr <$> before) ++ v :: after with
                 | [] => x
                 | _ => x +:+ sep +:+ tail
                 end)) = Raise (TypeError msg)).
    by rewrite Hmsg.
Qed.

(** C10, as amended.  Without [subject], or with [subject] and without
    [body], [format_email] raises the [KeyError] of the missing key.  With
    [subject] present and [body] a string, it returns the display text
    (subject line, body, follow-up section) when [follow_up] is absent,
    which shows as N/A, or is a string; the address shows as
    email@example.com when the prospect has none.  With both keys present,
    a [body] that is not a string, or a [follow_up] that is present and not
    a string, is a [TypeError]. *)
Theorem format_email_spec (email : gmap string pyval) (prospect : Prospect) :
  (email !! "subject" = None →
   format_email email prospect = Raise (KeyError "subject"))
  ∧ (is_Some (email !! "subject") → email !! "body" = None →
     format_email email prospect = Raise (KeyError "body"))
  ∧ (∀ subject body,
       email !! "subject" = Some subject →
       email !! "body" = Some (PyStr body) →
       ∃ address,
         (Prospect.email prospect = None → address = "email@example.com")
         ∧ (∀ a, Prospect.email prospect = Some a → a ≠ EmptyString →
                 address = a)
         ∧ (email !! "follow_up" = None →
            format_email email prospect
            = Ok (rendered_email (Prospect.name prospect) address
                    (py_str subject) body "N/A"))
         ∧ (∀ f, email !! "follow_up" = Some (PyStr f) →
            format_email email prospect
            = Ok (rendered_email (Prospect.name prospect) address
                    (py_str subject) body f)))
  ∧ (∀ subject body,
       email !! "subject" = Some subject → email !! "body" = Some body →
       (∀ s, body ≠ PyStr s) →
       ∃ msg, format_email email prospect = Raise (TypeError msg))
  ∧ (∀ subject body f,
       email !! "subject" = Some subject →
       email !! "body" = Some (PyStr body) →
       email !! "follow_up" = Some f → (∀ s, f ≠ PyStr s) →
       ∃ msg, format_email email prospect = Raise (TypeError msg)).
Proof.
  unfold format_email, dict_getitem. repeat apply conj.
  - by intros ->.
  - by intros [subject ->] ->.
  - intros subject body -> ->.
    exists (or_else (Prospect.email prospect) "email@example.com").
    repeat apply conj.
    + by intros ->.
    + intros a -> Ha. by apply or_else_Some.
    + intros ->. simpl default. cbn [mbind result_bind].
      apply (join_items_strings nl 0
               [_; _; _; _; _; _; _; _; _; _; _; _]).
    + intros f ->. simpl default. cbn [mbind result_bind].
      apply (join_items_strings nl 0
               [_; _; _; _; _; _; _; _; _; _; _; _]).
  - intros subject body -> -> Hbody. cbn [mbind result_bind].
    apply (join_items_not_str nl 0 [_; _; _; _; _] body); done.
  - intros subject body f -> -> -> Hf. simpl default. cbn [mbind result_bind].
    apply (join_items_not_str nl 0 [_; _; _; _; _; _; _; _; _; _] f); done.
Qed.

(** ** What is extracted from a fetched page *)

(** A page that was fetched and parsed: the dictionary is what [extract]
    makes of it, or the error of [extract]. *)
Lemma research_website_fetched (self : ProspectResearcher) (url : string)
    (log : list Request) (resp : Response) (soup : list node) :
  network (get_request (session self) url 10) = Ok resp →
  html_parser (text resp) = Ok soup →
  (research_website self url log).1
  = match extract soup with
    | Ok data => data
    | Raise e => {[ "error" := VStr (str_exn e) ]}
    end.
Proof.
  intros Hnet Hparse.
  unfold research_website, research_website_try, session_get.
  rewrite Hnet. simpl. rewrite Hparse. done.
Qed.

Lemma hints_of_src_spec (src name : string) :
  name ∈ hints_of_src src
  ↔ name ∈ tech_vocabulary ∧ str_contains (str_lower name) src = true.
Proof.
  unfold hints_of_src, tech_vocabulary. split.
  - rewrite !elem_of_app. intros H.
    destruct H as [H|[H|[H|[H|[H|H]]]]];
      match type of H with
      | _ ∈ (if ?b then _ else _) => destruct b eqn:E
      end;
      try (by apply elem_of_nil in H);
      apply list_elem_of_singleton in H as ->;
      (split; [set_solver | exact E]).
  - intros [Hv Hc]. rewrite !elem_of_app.
    repeat (apply elem_of_cons in Hv as [->|Hv]);
      [ | | | | | | by apply elem_of_nil in Hv ];
      match type of Hc with
      | str_contains ?l src = true =>
          let l' := eval vm_compute in l in change l with l' in Hc
      end;
      rewrite Hc; set_solver.
Qed.

Lemma tech_loop_spec (scripts : list node) (acc hints : list string) :
  tech_loop scripts acc = Ok hints →
  ∀ name, name ∈ hints
          ↔ name ∈ acc
            ∨ ∃ s src, s ∈ scripts ∧ tag_attrs s !! "src" = Some src
                       ∧ name ∈ hints_of_src (str_lower src).
Proof.
  revert acc. induction scripts as [|s scripts IH]; intros acc; simpl.
  - intros [= <-] name. split; [by left|].
    intros [H|(s & src & Hs & _)]; [done | by apply elem_of_nil in Hs].
  - unfold tag_getitem, dict_getitem.
    destruct (tag_attrs s !! "src") as [src|] eqn:Esrc; [|done]. simpl.
    intros H name. rewrite (IH _ H name), elem_of_app. split.
    + intros [[Ha|Hh]|(s' & src' & Hs' & Hsrc' & Hh)].
      * by left.
      * right. exists s, src. split; [left|done].
      * right. exists s', src'. split; [by right|done].
    + intros [Ha|(s' & src' & Hs' & Hsrc' & Hh)]; [by left; left|].
      apply elem_of_cons in Hs' as [->|Hs'].
      * left; right. by replace src with src' by congruence.
      * right. by exists s', src'.
Qed.



(** What is stored under [description] and [title] when the first
    description meta tag, if any, has a [content]. *)
Lemma description_and_title (self : ProspectResearcher) (url : string)
    (log : list Request) (resp : Response) (soup : list node) :
  network (get_request (session self) url 10) = Ok resp →
  html_parser (text resp) = Ok soup →
  let data := (research_website self url log).1 in
  let title := match find "title" soup with
               | Some t => VStr (get_text t)
               | None => VNone
               end in
  (find_with_attr "meta" "name" "description" soup = None →
   data !! "description" = Some VNone ∧ data !! "title" = Some title)
  ∧ (∀ meta_desc c,
       find_with_attr "meta" "name" "description" soup = Some meta_desc →
       tag_attrs meta_desc !! "content" = Some c →
       data !! "description" = Some (VStr c) ∧ data !! "title" = Some title).
Proof.
  intros Hnet Hparse data title. subst data.
  rewrite (research_website_fetched self url log resp soup Hnet Hparse).
  destruct (extract_eq soup) as (raw & _ & ->). split.
  - intros ->. split; apply found_lookup.
  - intros m c -> ->. split; apply found_lookup.
Qed.

(** C5, where the code departs from it.  When the first meta tag named
    [description] has no [content] attribute, the subscript raises
    [KeyError], and the whole result is the error dictionary: no
    [description], no [title], no [about], no [tech_hints]. *)
Theorem meta_without_content_is_error (self : ProspectResearcher)
    (url : string) (log : list Request) (resp : Response) (soup : list node)
    (meta_desc : node) :
  network (get_request (session self) url 10) = Ok resp →
  html_parser (text resp) = Ok soup →
  find_with_attr "meta" "name" "description" soup = Some meta_desc →
  tag_attrs meta_desc !! "content" = None →
  (research_website self url log).1 = {[ "error" := VStr "'content'" ]}.
Proof.
  intros Hnet Hparse Hfind Hcontent.
  rewrite (research_website_fetched self url log resp soup Hnet Hparse).
  destruct (extract_eq soup) as (raw & _ & ->).
  by rewrite Hfind, Hcontent.
Qed.

(** ** The about text *)

(** What the loop over the selectors returns: the truncated text of the
    match of the first selector whose match has more than 100 characters
    of truncated text; the selectors before it matched nothing or too
    little. *)
Lemma about_loop_spec (soup : list node) (sels : list selector) :
  (about_loop soup sels = VNone
   ∧ ∀ sel elem, sel ∈ sels → select_one sel soup = Some elem →
                 (String.length (about_text elem) ≤ 100)%nat)
  ∨ (∃ pre sel post elem,
       sels = pre ++ sel :: post
       ∧ select_one sel soup = Some elem
       ∧ about_loop soup sels = VStr (about_text elem)
       ∧ (100 < String.length (about_text elem) ≤ 500)%nat
       ∧ ∀ sel' elem', sel' ∈ pre → select_one sel' soup = Some elem' →
                       (String.length (about_text elem') ≤ 100)%nat).
Proof.
  induction sels as [|sel sels IH]; simpl.
  - left. split; [done|]. intros sel elem H. by apply elem_of_nil in H.
  - destruct (select_one sel soup) as [elem|] eqn:Esel.
    + fold (about_text elem).
      destruct (100 <? String.length (about_text elem))%nat eqn:Elen.
      * right. exists [], sel, sels, elem. apply Nat.ltb_lt in Elen.
        pose proof (str_take_length 500 (get_text elem)) as Hle.
        fold (about_text elem) in Hle.
        repeat split; try done; try lia.
        all: try (intros sel' elem' H; by apply elem_of_nil in H).
      * apply Nat.ltb_ge in Elen.
        destruct IH as [[-> IH]|(pre & s & post & e & -> & Hs & -> & Hl & IH)].
        -- left. split; [done|]. intros sel' elem' Hin Hsel'.
           apply elem_of_cons in Hin as [->|Hin]; [|by eapply IH].
           by replace elem' with elem by congruence.
        -- right. exists (sel :: pre), s, post, e.
           repeat split; try done; try lia.
           intros sel' elem' Hin Hsel'.
           apply elem_of_cons in Hin as [->|Hin]; [|by eapply IH].
           by replace elem' with elem by congruence.
    + destruct IH as [[-> IH]|(pre & s & post & e & -> & Hs & -> & Hl & IH)].
      * left. split; [done|]. intros sel' elem' Hin Hsel'.
        apply elem_of_cons in Hin as [->|Hin]; [congruence|by eapply IH].
      * right. exists (sel :: pre), s, post, e.
        repeat split; try done; try lia.
        intros sel' elem' Hin Hsel'.
        apply elem_of_cons in Hin as [->|Hin]; [congruence|by eapply IH].
Qed.

(** C6, as amended.  For a page that was fetched and parsed, the value
    under [about] is the text, cut to its first 500 characters, of the
    element matched by the first of the four selectors (in the order of the
    source) whose match has more than 100 characters of cut text; a
    selector whose match has less is passed over, and the value is [None]
    when no selector qualifies.  A text stored there is longer than 100 and
    at most 500 characters. *)
Theorem about_spec (self : ProspectResearcher) (url : string)
    (log : list Request) (resp : Response) (soup : list node) (v : value) :
  network (get_request (session self) url 10) = Ok resp →
  html_parser (text resp) = Ok soup →
  (research_website self url log).1 !! "about" = Some v →
  (v = VNone
   ∧ ∀ sel elem, sel ∈ about_selectors → select_one sel soup = Some elem →
                 (String.length (about_text elem) ≤ 100)%nat)
  ∨ (∃ pre sel post elem,
       about_selectors = pre ++ sel :: post
       ∧ select_one sel soup = Some elem
       ∧ v = VStr (about_text elem)
       ∧ (100 < String.length (about_text elem) ≤ 500)%nat
       ∧ ∀ sel' elem', sel' ∈ pre → select_one sel' soup = Some elem' →
                       (String.length (about_text elem') ≤ 100)%nat).
Proof.
  intros Hnet Hparse.
  rewrite (research_website_fetched self url log resp soup Hnet Hparse).
  destruct (extract_eq soup) as (raw & _ & ->).
  assert (∀ d t h, found d t (about_loop soup about_selectors) h !! "about"
                   = Some v → v = about_loop soup about_selectors) as Hfound.
  { intros d t h H.
    destruct (found_lookup d t (about_loop soup about_selectors) h)
      as (_ & _ & Hl & _).
    congruence. }
  assert (v = about_loop soup about_selectors →
          (v = VNone
           ∧ ∀ sel elem, sel ∈ about_selectors →
               select_one sel soup = Some elem →
               (String.length (about_text elem) ≤ 100)%nat)
          ∨ (∃ pre sel post elem,
               about_selectors = pre ++ sel :: post
               ∧ select_one sel soup = Some elem
               ∧ v = VStr (about_text elem)
               ∧ (100 < String.length (about_text elem) ≤ 500)%nat
               ∧ ∀ sel' elem', sel' ∈ pre →
                   select_one sel' soup = Some elem' →
                   (String.length (about_text elem') ≤ 100)%nat)) as Hgoal.
  { intros ->. apply about_loop_spec. }
  destruct (find_with_attr "meta" "name" "description" soup) as [m|].
  - destruct (tag_attrs m !! "content") as [c|].
    + intros H. apply Hfound in H. by apply Hgoal.
    + rewrite lookup_singleton_ne by done. done.
  - intros H. apply Hfound in H. by apply Hgoal.
Qed.

(** ** Enriching the prospect *)

(** C9.  [research] leaves the eight fields other than
    [company_description] and [tech_stack] as they were.  Without a website
    the prospect comes back unchanged, and no request is made.  The
    description changes only to a non-empty string found under
    [description], and the tech stack only to the members of a non-empty
    list found under [tech_hints], joined with a comma and a space; and
    with a non-empty website, such a finding is always stored. *)
Theorem research_frame (self : ProspectResearcher) (prospect : Prospect)
    (log : list Request) :
  let p' := (research self prospect log).1 in
  Prospect.name p' = Prospect.name prospect
  ∧ Prospect.company p' = Prospect.company prospect
  ∧ Prospect.role p' = Prospect.role prospect
  ∧ Prospect.email p' = Prospect.email prospect
  ∧ Prospect.linkedin p' = Prospect.linkedin prospect
  ∧ Prospect.website p' = Prospect.website prospect
  ∧ Prospect.recent_news p' = Prospect.recent_news prospect
  ∧ Prospect.pain_points p' = Prospect.pain_points prospect
  ∧ (Prospect.website prospect = None →
     research self prospect log = (prospect, log))
  ∧ (Prospect.company_description p' ≠ Prospect.company_description prospect →
     ∃ url d,
       Prospect.website prospect = Some url
       ∧ (research_website self url log).1 !! "description" = Some (VStr d)
       ∧ d ≠ EmptyString
       ∧ Prospect.company_description p' = Some d)
  ∧ (Prospect.tech_stack p' ≠ Prospect.tech_stack prospect →
     ∃ url hints,
       Prospect.website prospect = Some url
       ∧ (research_website self url log).1 !! "tech_hints" = Some (VList hints)
       ∧ hints ≠ []
       ∧ Prospect.tech_stack p' = Some (str_join ", " hints))
  ∧ (∀ url d,
       Prospect.website prospect = Some url → url ≠ EmptyString →
       (research_website self url log).1 !! "description" = Some (VStr d) →
       d ≠ EmptyString →
       Prospect.company_description p' = Some d)
  ∧ (∀ url hints,
       Prospect.website prospect = Some url → url ≠ EmptyString →
       (research_website self url log).1 !! "tech_hints" = Some (VList hints) →
       hints ≠ [] →
       Prospect.tech_stack p' = Some (str_join ", " hints)).
Proof.
  unfold research.
  destruct (Prospect.website prospect) as [url|] eqn:Eweb;
    [|simpl; repeat split; try done; by intros ? ? [=]].
  destruct (str_truthy url) eqn:Eurl.
  2:{ apply (not_true_iff_false _), (not_iff_compat (str_truthy_spec url)) in Eurl.
      simpl. repeat split; try done; intros ? ? [= <-]; tauto. }
  assert (∀ u, Some url = Some u → (research_website self u log).1
                                   = (research_website self url log).1) as Hu
    by (by intros ? [= <-]).
  destruct (research_website self url log) as [data log'] eqn:Erw.
  cbn [fst snd] in *. unfold value_truthy.
  set (p1 := match data !! "description" with
             | Some (VStr d) =>
                 if str_truthy d then set_company_description prospect d
                 else prospect
             | _ => prospect
             end).
  (* the first assignment *)
  assert ((p1 = prospect
           ∧ ∀ d, data !! "description" = Some (VStr d) → d = EmptyString)
          ∨ ∃ d, data !! "description" = Some (VStr d) ∧ d ≠ EmptyString
                 ∧ p1 = set_company_description prospect d) as H1.
  { subst p1. destruct (data !! "description") as [[|d|?]|]; try (by left).
    destruct (str_truthy d) eqn:Etd.
    - right. exists d. by apply str_truthy_spec in Etd.
    - left. split; [done|]. intros ? [= <-].
      destruct (String.eqb_spec d EmptyString) as [->|Hne]; [done|].
      apply str_truthy_spec in Hne. congruence. }
  (* the second assignment *)
  set (p2 := match data !! "tech_hints" with
             | Some (VList hints) =>
                 if negb (bool_decide (hints = []))
                 then set_tech_stack p1 (str_join ", " hints)
                 else p1
             | _ => p1
             end).
  assert ((p2 = p1
           ∧ ∀ hints, data !! "tech_hints" = Some (VList hints) → hints = [])
          ∨ ∃ hints, data !! "tech_hints" = Some (VList hints) ∧ hints ≠ []
                     ∧ p2 = set_tech_stack p1 (str_join ", " hints)) as H2.
  { subst p2. destruct (data !! "tech_hints") as [[|?|hints]|]; try (by left).
    destruct hints as [|h hints]; simpl.
    - left. split; [done|]. by intros ? [= <-].
    - right. by exists (h :: hints). }
  clearbody p1 p2.
  destruct H1 as [[-> Hd]|(d & Hd & Hdne & ->)];
    destruct H2 as [[-> Hh]|(hints & Hh & Hhne & ->)];
    cbn -[research_website].
  all: repeat apply conj; try done.
  all: try (intros _; exists url; eexists; rewrite (Hu url eq_refl); done).
  all: intros u x Heq _; rewrite (Hu u Heq); intros Hx Hy;
       first [by apply Hd in Hx | by apply Hh in Hx | congruence].
Qed.

(** ** The reply of the model *)

Lemma str_app_nil_r (s : string) : s +:+ EmptyString = s.
Proof. induction s as [|c s IH]; simpl; [done | by rewrite IH]. Qed.

Lemma str_contains_cons_false (sub : string) (c : ascii) (r : string) :
  str_contains sub (String c r) = false →
  startswith sub (String c r) = false ∧ str_contains sub r = false.
Proof. simpl. by destruct (startswith sub (String c r)). Qed.

(** A text without the separator is one piece. *)
Lemma split_scan_absent (sep s cur : string) :
  str_contains sep s = false → split_scan sep s 0 cur = [cur +:+ s].
Proof.
  revert cur. induction s as [|c r IH]; intros cur H.
  - simpl. by rewrite str_app_nil_r.
  - apply str_contains_cons_false in H as [Hs Hr].
    cbn [split_scan]. rewrite Hs, (IH _ Hr), str_app_assoc. done.
Qed.

(** Up to the first fence, the scan only collects. *)
Lemma split_scan_before_fence (pre rest cur : string) :
  str_contains "`" pre = false →
  split_scan "```" (pre +:+ rest) 0 cur
  = split_scan "```" rest 0 (cur +:+ pre).
Proof.
  revert cur. induction pre as [|c pre IH]; intros cur H.
  - simpl. by rewrite str_app_nil_r.
  - apply str_contains_cons_false in H as [Hc Hpre].
    assert (startswith "```" (String c (pre +:+ rest)) = false) as Hs.
    { cbn [startswith] in *. by destruct (Ascii.eqb "`" c). }
    change (String c pre +:+ rest) with (String c (pre +:+ rest)).
    cbn [split_scan]. rewrite Hs, (IH _ Hpre), str_app_assoc. done.
Qed.

Lemma split_scan_at_fence (rest cur : string) :
  split_scan "```" ("```" +:+ rest) 0 cur = cur :: split_scan "```" rest 0 EmptyString.
Proof. reflexivity. Qed.

(** The text between the first two fences, when neither it nor the text
    before them holds a backtick. *)
Lemma split_fenced (pre inner post : string) :
  str_contains "`" pre = false → str_contains "`" inner = false →
  ∃ rest, str_split (pre +:+ "```" +:+ inner +:+ "```" +:+ post) "```"
          = Ok (pre :: inner :: rest).
Proof.
  intros Hpre Hinner. eexists. unfold str_split.
  rewrite (split_scan_before_fence pre _ _ Hpre), split_scan_at_fence.
  rewrite (split_scan_before_fence inner _ _ Hinner), split_scan_at_fence.
  done.
Qed.

Lemma str_replace_absent (s new : string) :
  str_contains "json" s = false → str_replace s "json" new = s.
Proof. intros H. unfold str_replace. by rewrite (split_scan_absent _ _ _ H). Qed.

Lemma str_replace_leading_tag (s : string) :
  str_contains "json" s = false →
  str_replace ("json" +:+ s) "json" EmptyString = s.
Proof.
  intros H. unfold str_replace.
  change (split_scan "json" ("json" +:+ s) 0 EmptyString)
    with (EmptyString :: split_scan "json" s 0 EmptyString).
  by rewrite (split_scan_absent _ _ _ H).
Qed.

(** A reply without a fence goes to the decoder as it is. *)
Lemma unwrap_fence_plain (content : string) :
  str_contains "```" content = false → unwrap_fence content = Ok content.
Proof. intros H. unfold unwrap_fence. by rewrite H. Qed.

(** What C1 says does hold when the fenced text holds neither a backtick
    nor the word json: with or without the language tag, the decoder is
    given the text between the fences, stripped. *)
Lemma unwrap_fence_fenced (pre inner post : string) :
  str_contains "`" pre = false → str_contains "`" inner = false →
  str_contains "json" inner = false →
  unwrap_fence (pre +:+ "```" +:+ inner +:+ "```" +:+ post)
  = Ok (str_strip inner)
  ∧ unwrap_fence (pre +:+ "```json" +:+ inner +:+ "```" +:+ post)
    = Ok (str_strip inner).
Proof.
  intros Hpre Hinner Hjson. unfold unwrap_fence. split.
  - assert (str_contains "```" (pre +:+ "```" +:+ inner +:+ "```" +:+ post)
            = true) as -> by (apply str_contains_spec; eauto).
    destruct (split_fenced pre inner post Hpre Hinner) as [rest ->].
    change (Ok (str_strip (str_replace inner "json" EmptyString))
            = Ok (str_strip inner)).
    by rewrite (str_replace_absent _ _ Hjson).
  - assert (str_contains "```"
              (pre +:+ "```json" +:+ inner +:+ "```" +:+ post) = true) as ->.
    { apply str_contains_spec. exists pre, ("json" +:+ inner +:+ "```" +:+ post).
      done. }
    assert (str_contains "`" ("json" +:+ inner) = false) as Htag
      by (simpl; exact Hinner).
    destruct (split_fenced pre ("json" +:+ inner) post Hpre Htag) as [rest Hs].
    change (pre +:+ "```json" +:+ inner +:+ "```" +:+ post)
      with (pre +:+ "```" +:+ ("json" +:+ inner) +:+ "```" +:+ post).
    rewrite Hs.
    change (Ok (str_strip (str_replace ("json" +:+ inner) "json" EmptyString))
            = Ok (str_strip inner)).
    by rewrite (str_replace_leading_tag _ Hjson).
Qed.

(** C1, where the code departs from it.  When the model answers with the
    fenced JSON object [reply_fenced], the decoder is not given the object
    inside the fence but that text with every [json] removed: the subject
    has lost a word. *)
Theorem generate_anthropic_drops_json (prompt : string) :
  anthropic_messages_create "claude-3-haiku-20240307" 2048
    (prompt +:+ nl +:+ nl +:+ "Respond with JSON only.") = Ok [reply_fenced] →
  _generate_anthropic prompt = json_loads reply_mangled
  ∧ reply_mangled ≠ reply_json.
Proof.
  intros Hapi. split; [|by vm_compute].
  assert (unwrap_fence reply_fenced = Ok reply_mangled) as Hun
    by (vm_compute; reflexivity).
  unfold _generate_anthropic. rewrite Hapi.
  change ((content ← unwrap_fence reply_fenced; json_loads content)
          = json_loads reply_mangled).
  by rewrite Hun.
Qed.

End Properties.

(** * Further properties *)

Section Further.

Context {W : World}.

(** ** The fence, in general *)

Lemma split_scan_nonempty (sep s : string) (skip : nat) (cur : string) :
  ∃ x l, split_scan sep s skip cur = x :: l.
Proof.
  revert skip cur. induction s as [|c s IH]; intros skip cur.
  - by eexists _, _.
  - cbn [split_scan]. destruct skip as [|k]; [|apply IH].
    destruct (startswith sep (String c s)); [by eexists _, _ | apply IH].
Qed.

(** A text that holds the separator splits into at least two pieces. *)
Lemma split_scan_two (sep s cur : string) :
  sep ≠ EmptyString → str_contains sep s = true →
  ∃ a b rest, split_scan sep s 0 cur = a :: b :: rest.
Proof.
  intros Hsep. revert cur. induction s as [|c s IH]; intros cur H.
  - destruct sep; [done | discriminate].
  - cbn [str_contains] in H. cbn [split_scan].
    destruct (startswith sep (String c s)).
    + destruct (split_scan_nonempty sep s (String.length sep - 1) EmptyString)
        as (x & l & ->).
      by eexists _, _, _.
    + by apply IH.
Qed.

(** X1.  The subscript [[1]] after the split is always in range: whatever
    the model replies, the lines before [json.loads] raise nothing. *)
Theorem unwrap_fence_never_raises (content : string) :
  ∃ s, unwrap_fence content = Ok s.
Proof.
  unfold unwrap_fence.
  destruct (str_contains "```" content) eqn:E; [|by eexists].
  destruct (split_scan_two "```" content EmptyString) as (a & b & rest & Hs);
    [done | done |].
  change (str_split content "```")
    with (Ok (split_scan "```" content 0 EmptyString)).
  rewrite Hs. by eexists.
Qed.

(** X2.  With two fences, what stands before the first and after the
    second is dropped, and the decoder is given the block between them with
    every [json] removed and the white space around it stripped. *)
Theorem unwrap_fence_block (pre inner post : string) :
  str_contains "`" pre = false → str_contains "`" inner = false →
  unwrap_fence (pre +:+ "```" +:+ inner +:+ "```" +:+ post)
  = Ok (str_strip (str_replace inner "json" EmptyString)).
Proof.
  intros Hpre Hinner. unfold unwrap_fence.
  assert (str_contains "```" (pre +:+ "```" +:+ inner +:+ "```" +:+ post)
          = true) as -> by (apply str_contains_spec; eauto).
  by destruct (split_fenced pre inner post Hpre Hinner) as [rest ->].
Qed.

(** X3.  An opening fence that is never closed (a reply cut short) is
    enough: everything after it is taken as the block. *)
Theorem unwrap_fence_unclosed (pre rest : string) :
  str_contains "`" pre = false → str_contains "```" rest = false →
  unwrap_fence (pre +:+ "```" +:+ rest)
  = Ok (str_strip (str_replace rest "json" EmptyString)).
Proof.
  intros Hpre Hrest. unfold unwrap_fence.
  assert (str_contains "```" (pre +:+ "```" +:+ rest) = true) as ->
    by (apply str_contains_spec; eauto).
  change (str_split (pre +:+ "```" +:+ rest) "```")
    with (Ok (split_scan "```" (pre +:+ "```" +:+ rest) 0 EmptyString)).
  rewrite (split_scan_before_fence pre _ _ Hpre), split_scan_at_fence.
  by rewrite (split_scan_absent _ _ _ Hrest).
Qed.

(** ** The provider *)

Lemma select_provider_unknown (preferred : string) :
  preferred ≠ "openai" → preferred ≠ "anthropic" → preferred ≠ "auto" →
  _select_provider preferred
  = Raise (RuntimeError "No AI provider. Set OPENAI_API_KEY or ANTHROPIC_API_KEY").
Proof.
  intros H1 H2 H3. unfold _select_provider.
  apply String.eqb_neq in H1, H2, H3. by rewrite H1, H2, H3.
Qed.

(** X4.  A generator is constructed only for one of the three known
    preferences, it has one of the two providers (the preferred one unless
    the preference was [auto]), and so the [else] branch of [generate] is
    taken for anthropic and nothing else. *)
Theorem generator_provider_invariant (preferred : string)
    (generator : ColdEmailGenerator) (prospect : Prospect)
    (config : EmailConfig) :
  ColdEmailGenerator__init__ preferred = Ok generator →
  (preferred = "openai" ∨ preferred = "anthropic" ∨ preferred = "auto")
  ∧ (preferred ≠ "auto" → provider generator = preferred)
  ∧ ∃ prompt,
      str_format TEMPLATE_PROMPT (prompt_kwargs prospect config) = Ok prompt
      ∧ ((provider generator = "openai"
          ∧ generate generator prospect config = _generate_openai prompt)
         ∨ (provider generator = "anthropic"
            ∧ generate generator prospect config
              = _generate_anthropic prompt)).
Proof.
  intros Hinit.
  assert (preferred = "openai" ∨ preferred = "anthropic" ∨ preferred = "auto")
    as Hknown.
  { destruct (String.eqb_spec preferred "openai"); [by left|].
    destruct (String.eqb_spec preferred "anthropic"); [by right; left|].
    destruct (String.eqb_spec preferred "auto"); [by right; right|].
    unfold ColdEmailGenerator__init__ in Hinit.
    by rewrite select_provider_unknown in Hinit. }
  split; [done|].
  assert ((provider generator = "openai" ∨ provider generator = "anthropic")
          ∧ (preferred ≠ "auto" → provider generator = preferred))
    as [Hprov Hexplicit].
  { unfold ColdEmailGenerator__init__, _select_provider in Hinit.
    destruct Hknown as [-> | [-> | ->]]; cbn in Hinit.
    - injection Hinit as <-. by split; [left|].
    - injection Hinit as <-. by split; [right|].
    - destruct (HAS_OPENAI && _); cbn in Hinit.
      + injection Hinit as <-. by split; [left|].
      + destruct (HAS_ANTHROPIC && _); cbn in Hinit; [|done].
        injection Hinit as <-. by split; [right|]. }
  split; [done|]. eexists. split.
  { unfold prompt_kwargs. apply format_TEMPLATE_PROMPT. }
  unfold generate, prompt_kwargs. rewrite format_TEMPLATE_PROMPT.
  destruct Hprov as [-> | ->]; [by left | by right].
Qed.

(** ** Research, beyond the frame *)

Lemma research_website_log (self : ProspectResearcher) (url : string)
    (log : list Request) :
  (research_website self url log).2
  = log ++ [get_request (session self) url 10].
Proof. reflexivity. Qed.

Lemma research_website_raised (self : ProspectResearcher) (url : string)
    (log : list Request) (e : exn) :
  (research_website_try self url log).1 = Raise e →
  (research_website self url log).1 = {[ "error" := VStr (str_exn e) ]}.
Proof.
  unfold research_website.
  destruct (research_website_try self url log) as [r log']. simpl.
  by intros ->.
Qed.

(** [research] on a prospect with a website, written out. *)
Lemma research_eq (self : ProspectResearcher) (prospect : Prospect)
    (log : list Request) (url : string) :
  Prospect.website prospect = Some url → url ≠ EmptyString →
  research self prospect log
  = (Prospect.mk (Prospect.name prospect) (Prospect.company prospect)
       (Prospect.role prospect) (Prospect.email prospect)
       (Prospect.linkedin prospect) (Some url)
       (match (research_website self url log).1 !! "description" with
        | Some (VStr d) =>
            if str_truthy d then Some d
            else Prospect.company_description prospect
        | _ => Prospect.company_description prospect
        end)
       (Prospect.recent_news prospect)
       (match (research_website self url log).1 !! "tech_hints" with
        | Some (VList (h :: hints)) => Some (str_join ", " (h :: hints))
        | _ => Prospect.tech_stack prospect
        end)
       (Prospect.pain_points prospect),
     (research_website self url log).2).
Proof.
  intros Hweb Hurl. unfold research. rewrite Hweb.
  apply str_truthy_spec in Hurl as ->.
  destruct (research_website self url log) as [data log']. cbn [fst snd].
  destruct prospect as [n c r e l w cd rn ts pp]. cbn in Hweb. subst w.
  destruct (data !! "description") as [[|d|?]|];
    try destruct (str_truthy d);
    destruct (data !! "tech_hints") as [[|?|[|h hints]]|]; reflexivity.
Qed.

(** X5.  When anything in the fetch or the extraction raises, [research]
    hands back the prospect exactly as it got it. *)
Theorem research_keeps_prospect_on_error (self : ProspectResearcher)
    (prospect : Prospect) (log : list Request) (url : string) (e : exn) :
  Prospect.website prospect = Some url →
  (research_website_try self url log).1 = Raise e →
  (research self prospect log).1 = prospect.
Proof.
  intros Hweb Hraise.
  destruct (String.eqb_spec url EmptyString) as [->|Hurl].
  { unfold research. by rewrite Hweb. }
  rewrite (research_eq self prospect log url Hweb Hurl).
  rewrite (research_website_raised self url log e Hraise).
  rewrite !lookup_singleton_ne by done.
  destruct prospect. cbn in *. by subst.
Qed.

(** X6.  [research] asks for one request, a GET of the website with a
    timeout of 10 seconds, when the website is a non-empty string, and for
    none when it is missing or empty. *)
Theorem research_requests (self : ProspectResearcher) (prospect : Prospect)
    (log : list Request) :
  (∀ url, Prospect.website prospect = Some url → url ≠ EmptyString →
          (research self prospect log).2
          = log ++ [get_request (session self) url 10])
  ∧ (opt_truthy (Prospect.website prospect) = false →
     research self prospect log = (prospect, log)).
Proof.
  split.
  - intros url Hweb Hurl.
    by rewrite (research_eq self prospect log url Hweb Hurl).
  - unfold research, opt_truthy.
    destruct (Prospect.website prospect) as [url|]; [|done].
    by intros ->.
Qed.

(** X7.  The list under [tech_hints] never has more than six names. *)
Theorem tech_hints_at_most_six (self : ProspectResearcher) (url : string)
    (log : list Request) (hints : list string) :
  enumerates_sets list_of_set →
  (research_website self url log).1 !! "tech_hints" = Some (VList hints) →
  (length hints ≤ 6)%nat.
Proof.
  intros Hset. unfold research_website.
  destruct (research_website_try self url log) as [[data|e] log'] eqn:E;
    cbn [fst]; [|by rewrite lookup_singleton_ne].
  unfold research_website_try, session_get in E. injection E as E _.
  destruct (network _) as [resp|]; [|done]. cbn [mbind result_bind] in E.
  destruct (html_parser (text resp)) as [soup|]; [|done].
  cbn [mbind result_bind] in E.
  destruct (extract_eq soup) as (raw & Hraw & Hex). rewrite Hex in E.
  assert (hints = list_of_set raw →
          (length hints ≤ 6)%nat) as Hgoal.
  { intros ->. destruct (Hset raw) as [Hnd Hel].
    change 6%nat with (length tech_vocabulary).
    apply submseteq_length, NoDup_submseteq; [done|].
    intros name Hname. apply Hel in Hname.
    apply (tech_loop_spec _ _ _ Hraw) in Hname
      as [Hname|(s & src & _ & _ & Hname)]; [by apply elem_of_nil in Hname|].
    by apply hints_of_src_spec in Hname as [? _]. }
  intros Hlook. apply Hgoal.
  assert (∀ d t a, Ok (found d t a (VList (list_of_set raw))) = Ok data →
                   hints = list_of_set raw) as Hfound.
  { intros d t a [= <-].
    destruct (found_lookup d t a (VList (list_of_set raw)))
      as (_ & _ & _ & Hl & _).
    congruence. }
  destruct (find_with_attr "meta" "name" "description" soup) as [m|].
  - destruct (tag_attrs m !! "content") as [c|]; [|done].
    by eapply Hfound.
  - by eapply Hfound.
Qed.

(** X8.  Research feeds the prompt: a non-empty description found on the
    page stands in the description slot of the prompt built for the
    researched prospect, whatever description the prospect had before. *)
Theorem research_then_prompt (self : ProspectResearcher)
    (prospect : Prospect) (config : EmailConfig) (log : list Request)
    (url d : string) :
  Prospect.website prospect = Some url → url ≠ EmptyString →
  (research_website self url log).1 !! "description" = Some (VStr d) →
  d ≠ EmptyString →
  ∃ tech_stack,
    str_format TEMPLATE_PROMPT
      (prompt_kwargs (research self prospect log).1 config)
    = Ok (filled_prompt (Prospect.name prospect) (Prospect.company prospect)
            (or_else (Prospect.role prospect) "Unknown") d tech_stack
            (EmailConfig.sender_name config)
            (EmailConfig.sender_company config)
            (EmailConfig.value_prop config) (EmailConfig.cta config)
            (EmailConfig.tone config) (EmailConfig.length config)).
Proof.
  intros Hweb Hurl Hdesc Hd.
  rewrite (research_eq self prospect log url Hweb Hurl), Hdesc.
  apply str_truthy_spec in Hd as Htd. rewrite Htd.
  eexists. unfold prompt_kwargs. cbn [fst Prospect.name Prospect.company
    Prospect.role Prospect.company_description Prospect.tech_stack].
  rewrite (or_else_Some d "Unknown" Hd).
  apply format_TEMPLATE_PROMPT.
Qed.

(** ** The displayed email, beyond its keys *)

(** X9.  [format_email] reads three keys of the email and two fields of
    the prospect: any other key and any other field is without effect. *)
Theorem format_email_frame (email : gmap string pyval)
    (prospect prospect' : Prospect) (key : string) (v : pyval) :
  key ≠ "subject" → key ≠ "body" → key ≠ "follow_up" →
  Prospect.name prospect' = Prospect.name prospect →
  Prospect.email prospect' = Prospect.email prospect →
  format_email (<[key := v]> email) prospect' = format_email email prospect.
Proof.
  intros H1 H2 H3 Hn He. unfold format_email, dict_getitem.
  rewrite !lookup_insert_ne by done. by rewrite Hn, He.
Qed.

(** X10.  An empty string counts as missing: an empty role, company
    description or tech stack shows as [Unknown] in the prompt, and an
    empty address as email@example.com in the display, with or without a
    follow-up. *)
Theorem empty_counts_as_missing (prospect : Prospect) (config : EmailConfig)
    (email : gmap string pyval) (subject : pyval) (body : string) :
  email !! "subject" = Some subject → email !! "body" = Some (PyStr body) →
  (∀ v, email !! "follow_up" = Some v → ∃ f, v = PyStr f) →
  ∃ role company_description tech_stack address follow_up,
    str_format TEMPLATE_PROMPT (prompt_kwargs prospect config)
    = Ok (filled_prompt (Prospect.name prospect) (Prospect.company prospect)
            role company_description tech_stack
            (EmailConfig.sender_name config)
            (EmailConfig.sender_company config)
            (EmailConfig.value_prop config) (EmailConfig.cta config)
            (EmailConfig.tone config) (EmailConfig.length config))
    ∧ format_email email prospect
      = Ok (rendered_email (Prospect.name prospect) address
              (py_str subject) body follow_up)
    ∧ (Prospect.role prospect = Some EmptyString → role = "Unknown")
    ∧ (Prospect.company_description prospect = Some EmptyString →
       company_description = "Unknown")
    ∧ (Prospect.tech_stack prospect = Some EmptyString →
       tech_stack = "Unknown")
    ∧ (Prospect.email prospect = Some EmptyString →
       address = "email@example.com")
    ∧ (email !! "follow_up" = None → follow_up = "N/A")
    ∧ (∀ f, email !! "follow_up" = Some (PyStr f) → follow_up = f).
Proof.
  intros Hs Hb Hf.
  exists (or_else (Prospect.role prospect) "Unknown"),
         (or_else (Prospect.company_description prospect) "Unknown"),
         (or_else (Prospect.tech_stack prospect) "Unknown"),
         (or_else (Prospect.email prospect) "email@example.com"),
         (match email !! "follow_up" with
          | Some v => py_str v
          | None => "N/A"
          end).
  split; [unfold prompt_kwargs; apply format_TEMPLATE_PROMPT|]. split.
  - unfold format_email, dict_getitem. rewrite Hs, Hb.
    destruct (email !! "follow_up") as [v|] eqn:Ev.
    + destruct (Hf v eq_refl) as [f ->]. cbn [mbind result_bind default py_str].
      apply (join_items_strings nl 0
               [_; _; _; _; _; _; _; _; _; _; _; _]).
    + cbn [mbind result_bind default].
      apply (join_items_strings nl 0
               [_; _; _; _; _; _; _; _; _; _; _; _]).
  - repeat split; try (by intros ->). by intros f ->.
Qed.

End Further.

(** ** The command line *)

Section MainProperties.

Context {W : World} {D : Decoded W}.

Lemma main_requests_eq (args : Args) :
  requests (main args) = (main_research args).2.
Proof.
  unfold main. destruct (main_research args) as [[p err] log].
  destruct (ColdEmailGenerator__init__ (Args.provider args)) as [g|]; [|done].
  destruct (generate g p (config_of_args args)) as [email|]; [|done].
  destruct (Args.json args); [done|].
  by destruct (format_decoded email p).
Qed.

(** What [main] prints to standard output and how it ends depend on the
    arguments only through the prospect, the configuration, the provider
    and the output switch. *)
Lemma main_outcome_eq (args args' : Args) :
  (main_research args).1.1 = (main_research args').1.1 →
  config_of_args args = config_of_args args' →
  Args.provider args = Args.provider args' →
  Args.json args = Args.json args' →
  stdout (main args) = stdout (main args')
  ∧ status (main args) = status (main args').
Proof.
  unfold main.
  destruct (main_research args) as [[p err] log],
    (main_research args') as [[p' err'] log'].
  cbn [fst]. intros <- <- <- <-.
  destruct (ColdEmailGenerator__init__ (Args.provider args)) as [g|]; [|done].
  destruct (generate g p (config_of_args args)) as [email|]; [|done].
  destruct (Args.json args); [done|].
  by destruct (format_decoded email p).
Qed.

(** X11.  A run asks for at most one page: none with [--no-research] or
    without a non-empty [--website], otherwise exactly one GET of the
    website, through a session with the fixed User-Agent, whatever happens
    afterwards. *)
Theorem main_requests (args : Args) :
  (Args.no_research args = true ∨ opt_truthy (Args.website args) = false →
   requests (main args) = [])
  ∧ (∀ url, Args.website args = Some url → url ≠ EmptyString →
            Args.no_research args = false →
            requests (main args)
            = [get_request (session ProspectResearcher__init__) url 10]
            ∧ req_headers (get_request (session ProspectResearcher__init__)
                             url 10) !! "User-Agent"
              = Some "Mozilla/5.0 (compatible; EmailResearch/1.0)").
Proof.
  rewrite main_requests_eq. unfold main_research. split.
  - intros [-> | ->]; [by rewrite andb_false_r | done].
  - intros url Hweb Hurl ->. rewrite Hweb. cbn [opt_truthy].
    apply str_truthy_spec in Hurl as Ht. rewrite Ht. cbn [andb negb].
    pose proof (research_eq ProspectResearcher__init__
                  (prospect_of_args args) [] url Hweb Hurl) as Heq.
    destruct (research ProspectResearcher__init__ (prospect_of_args args) [])
      as [p log]. injection Heq as _ ->.
    split; [done|]. apply lookup_insert_eq.
Qed.

(** X12.  When the provider cannot be selected or the generation raises,
    the run prints nothing to standard output, ends with exit code 1, and
    its last line on standard error is the message of the exception. *)
Theorem main_generation_failure (args : Args) (e : exn) :
  ColdEmailGenerator__init__ (Args.provider args) = Raise e
  ∨ (∃ generator,
       ColdEmailGenerator__init__ (Args.provider args) = Ok generator
       ∧ generate generator (main_research args).1.1 (config_of_args args)
         = Raise e) →
  stdout (main args) = []
  ∧ status (main args) = Exited 1
  ∧ last (stderr (main args)) = Some ("Error: " +:+ str_exn e).
Proof.
  unfold main. destruct (main_research args) as [[p err] log]. cbn [fst].
  intros [-> | (g & -> & ->)]; cbn [stdout status stderr];
    by rewrite last_snoc.
Qed.

(** X13.  Standard output is all or nothing: a run that returns has printed
    exactly one text there, and a run that ends any other way has printed
    nothing there. *)
Theorem main_stdout_all_or_nothing (args : Args) :
  (status (main args) = Returned ∧ ∃ out, stdout (main args) = [out])
  ∨ (status (main args) ≠ Returned ∧ stdout (main args) = []).
Proof.
  unfold main. destruct (main_research args) as [[p err] log].
  destruct (ColdEmailGenerator__init__ (Args.provider args)) as [g|];
    [|by right].
  destruct (generate g p (config_of_args args)) as [email|]; [|by right].
  destruct (Args.json args); [left; eauto|].
  destruct (format_decoded email p); [left; eauto | by right].
Qed.

(** X14.  With [--json] no exception escapes: the run returns or exits
    with code 1. *)
Theorem main_json_never_crashes (args : Args) :
  Args.json args = true →
  status (main args) = Returned ∨ status (main args) = Exited 1.
Proof.
  intros Hjson. unfold main. rewrite Hjson.
  destruct (main_research args) as [[p err] log].
  destruct (ColdEmailGenerator__init__ (Args.provider args)) as [g|];
    [|by right].
  destruct (generate g p (config_of_args args)); [by left | by right].
Qed.


(** X16.  A failed fetch costs nothing but the enrichment: the run prints
    to standard output and ends exactly as it would with [--no-research]. *)
Theorem main_survives_failed_fetch (args : Args) (url : string) (e : exn) :
  Args.website args = Some url →
  (research_website_try ProspectResearcher__init__ url []).1 = Raise e →
  stdout (main args) = stdout (main (skip_research args))
  ∧ status (main args) = status (main (skip_research args)).
Proof.
  intros Hweb Hraise. apply main_outcome_eq; try done.
  unfold main_research. cbn [skip_research Args.no_research negb].
  rewrite andb_false_r.
  destruct (opt_truthy (Args.website args) && negb (Args.no_research args))
    eqn:Hcond; [|done].
  apply andb_true_iff in Hcond as [Htruthy _].
  rewrite Hweb in Htruthy. cbn [opt_truthy] in Htruthy.
  apply str_truthy_spec in Htruthy.
  pose proof (research_eq ProspectResearcher__init__
                (prospect_of_args args) [] url Hweb Htruthy) as Heq.
  rewrite (research_website_raised _ url [] e Hraise) in Heq.
  rewrite !lookup_singleton_ne in Heq by done.
  destruct (research ProspectResearcher__init__ (prospect_of_args args) [])
    as [p log]. injection Heq as -> _.
  cbn [fst]. unfold prospect_of_args. cbn. by rewrite Hweb.
Qed.

End MainProperties.

(** * Concrete runs *)

Lemma remove_dups_enumerates : enumerates_sets remove_dups.
Proof.
  intros l. split; [apply NoDup_remove_dups|].
  intros x. apply elem_of_remove_dups.
Qed.

(** C2 as stated fails: with [auto] and [OPENAI_API_KEY] set, the provider
    is not [openai] when the openai package is not installed, nor when the
    key is set to the empty string. *)
Lemma select_provider_auto_without_package :
  (@environ world_acme !! "OPENAI_API_KEY" = Some "sk-test"
   ∧ @HAS_OPENAI world_acme = false
   ∧ _select_provider (W := world_acme) "auto" = Ok "anthropic")
  ∧ (@environ world_empty_key !! "OPENAI_API_KEY" = Some EmptyString
     ∧ @HAS_OPENAI world_empty_key = true
     ∧ _select_provider (W := world_empty_key) "auto" = Ok "anthropic").
Proof. repeat split; vm_compute; reflexivity. Qed.

(** C3 on a prospect with no role, description or tech stack. *)
Lemma generate_fills_template_run :
  str_format TEMPLATE_PROMPT (prompt_kwargs prospect_ann config_bob)
  = Ok (filled_prompt "Ann" "Acme" "Unknown" "Unknown" "Unknown"
          "Bob" "Hammers Inc" "lighter hammers" "quick call"
          "professional-friendly" "short").
Proof.
  destruct (generate_fills_template (W := world_acme)
              {| provider := "anthropic" |} prospect_ann config_bob)
    as (role & cd & ts & Hfmt & _ & Hr & Hc & Ht & _).
  rewrite Hfmt, (Hr eq_refl), (Hc eq_refl), (Ht eq_refl). reflexivity.
Defined.



(** C5 on a page whose description meta tag has no [content]: the title
    and the Stripe script of the page are lost with it. *)
Lemma meta_without_content_run :
  (research_website (W := world_meta_without_content)
     (@ProspectResearcher__init__ world_meta_without_content) acme_url []).1
  = {[ "error" := VStr "'content'" ]}.
Proof.
  apply (meta_without_content_is_error (W := world_meta_without_content)
           (@ProspectResearcher__init__ world_meta_without_content) acme_url []
           {| text := markup_meta_without_content |}
           page_meta_without_content
           (Tag "meta" {[ "name" := "description" ]} [])).
  - reflexivity.
  - reflexivity.
  - vm_compute. reflexivity.
  - vm_compute. reflexivity.
Defined.

(** C6 as stated fails: on the Acme page the first element matched is
    the [#about] block, whose text is short; the value under [about] is
    neither [None] nor that text, but the text of the section, matched by
    the last selector. *)
Lemma about_takes_a_later_selector :
  select_one (ById "about") page_acme
  = Some (Tag "div" {[ "id" := "about" ]} [NavigableString "About us"])
  ∧ about_text (Tag "div" {[ "id" := "about" ]} [NavigableString "About us"])
    = "About us"
  ∧ (research_website (W := world_acme) (@ProspectResearcher__init__ world_acme)
       acme_url []).1 !! "about" = Some (VStr long_text)
  ∧ String.length long_text = 132%nat.
Proof. repeat split; vm_compute; reflexivity. Qed.

(** C6, as amended, on the Acme page. *)
Lemma about_spec_run :
  (VStr long_text = VNone
   ∧ ∀ sel elem, sel ∈ about_selectors → select_one sel page_acme = Some elem →
                 (String.length (about_text elem) ≤ 100)%nat)
  ∨ (∃ pre sel post elem,
       about_selectors = pre ++ sel :: post
       ∧ select_one sel page_acme = Some elem
       ∧ VStr long_text = VStr (about_text elem)
       ∧ (100 < String.length (about_text elem) ≤ 500)%nat
       ∧ ∀ sel' elem', sel' ∈ pre → select_one sel' page_acme = Some elem' →
                       (String.length (about_text elem') ≤ 100)%nat).
Proof.
  apply (about_spec (W := world_acme) (@ProspectResearcher__init__ world_acme) acme_url []
           {| text := markup_acme |} page_acme (VStr long_text)).
  - reflexivity.
  - reflexivity.
  - vm_compute. reflexivity.
Defined.

(** The text of a tag, by the class of its strings: a script tag gives its
    code, and a tag around a script, a comment or a ruby annotation leaves
    them out. *)
Lemma get_text_of_script (attrs : gmap string string) (code : string) :
  get_text (Tag "script" attrs [SpecialString Script code]) = code.
Proof.
  change (code +:+ EmptyString = code). apply str_app_nil_r.
Qed.

Lemma get_text_around_special_strings (attrs a1 a2 : gmap string string)
    (before code comment note after : string) :
  get_text (Tag "div" attrs
              [ NavigableString before;
                Tag "script" a1 [SpecialString Script code];
                SpecialString Comment comment;
                Tag "rt" a2 [SpecialString RubyTextString note];
                NavigableString after ])
  = before +:+ after.
Proof.
  change (before +:+ (after +:+ EmptyString) = before +:+ after).
  by rewrite str_app_nil_r.
Qed.

(** On a page whose [#about] element is a script tag, the value under
    [about] is the code of the script, here 160 characters of it. *)
Lemma about_of_a_script_tag :
  (research_website (W := world_script_about)
     (@ProspectResearcher__init__ world_script_about) acme_url []).1
    !! "about" = Some (VStr js_text)
  ∧ String.length js_text = 160%nat.
Proof. split; vm_compute; reflexivity. Qed.

(** C9 on the Acme page: the description found on the page is stored. *)
Lemma research_frame_run :
  Prospect.company_description
    (research (W := world_acme) (@ProspectResearcher__init__ world_acme) prospect_ann []).1
  = Some "Anvils for every need".
Proof.
  destruct (research_frame (W := world_acme) (@ProspectResearcher__init__ world_acme)
              prospect_ann [])
    as (_ & _ & _ & _ & _ & _ & _ & _ & _ & _ & _ & Hdesc & _).
  apply (Hdesc acme_url).
  - reflexivity.
  - discriminate.
  - vm_compute. reflexivity.
  - discriminate.
Defined.

(** C10 as stated fails: each of the two emails has [subject] and
    [body]; the [follow_up] of the first is null, the body of the second
    is a number; [format_email] returns no string for either. *)
Lemma format_email_null_follow_up :
  (is_Some (email_null_follow_up !! "subject")
   ∧ is_Some (email_null_follow_up !! "body")
   ∧ format_email email_null_follow_up prospect_ann
     = Raise (TypeError
                "sequence item 10: expected str instance, NoneType found"))
  ∧ (is_Some (email_numeric_body !! "subject")
     ∧ is_Some (email_numeric_body !! "body")
     ∧ format_email email_numeric_body prospect_ann
       = Raise (TypeError
                  "sequence item 5: expected str instance, int found")).
Proof. repeat split; vm_compute; eauto. Qed.

(** C10, as amended, on an email without [follow_up]. *)
Lemma format_email_run :
  format_email email_without_follow_up prospect_ann
  = Ok (rendered_email "Ann" "email@example.com" "Lighter hammers" "Hi Ann"
          "N/A").
Proof.
  destruct (format_email_spec email_without_follow_up prospect_ann)
    as (_ & _ & Hok & _).
  destruct (Hok (PyStr "Lighter hammers") "Hi Ann")
    as (address & Haddr & _ & Hnone & _).
  - vm_compute. reflexivity.
  - vm_compute. reflexivity.
  - rewrite Hnone, (Haddr eq_refl).
    + reflexivity.
    + vm_compute. reflexivity.
Defined.

(** C1 on the fenced reply: the decoder is handed the mangled text. *)
Lemma generate_anthropic_run :
  _generate_anthropic (W := world_fenced_reply) "Write to Ann"
  = Ok reply_mangled
  ∧ reply_mangled ≠ reply_json.
Proof.
  apply (generate_anthropic_drops_json (W := world_fenced_reply)).
  reflexivity.
Defined.

(** * Concrete runs of the further properties *)

(** X2 on a reply with talk around the block. *)
Lemma unwrap_fence_block_run : unwrap_fence reply_chatty = Ok reply_plain.
Proof.
  etransitivity.
  - apply (unwrap_fence_block talk_before (nl +:+ reply_plain +:+ nl)
             talk_after); vm_compute; reflexivity.
  - vm_compute. reflexivity.
Defined.

(** X3 on a reply cut short inside the block. *)
Lemma unwrap_fence_unclosed_run :
  unwrap_fence reply_cut_short
  = Ok ("{" +:+ quoted "subject" +:+ ": " +:+ quoted "Lighter ham").
Proof.
  etransitivity.
  - apply (unwrap_fence_unclosed EmptyString
             ("json" +:+ nl +:+ "{" +:+ quoted "subject" +:+ ": "
              +:+ quoted "Lighter ham")); vm_compute; reflexivity.
  - vm_compute. reflexivity.
Defined.

(** X4 on the generator that [auto] gives in the Acme world. *)
Lemma generator_provider_invariant_run :
  ("auto" = "openai" ∨ "auto" = "anthropic" ∨ "auto" = "auto")
  ∧ ("auto" ≠ "auto" → provider {| provider := "anthropic" |} = "auto")
  ∧ ∃ prompt,
      str_format TEMPLATE_PROMPT (prompt_kwargs prospect_ann config_bob)
      = Ok prompt
      ∧ ((provider {| provider := "anthropic" |} = "openai"
          ∧ generate (W := world_acme) {| provider := "anthropic" |}
              prospect_ann config_bob
            = _generate_openai (W := world_acme) prompt)
         ∨ (provider {| provider := "anthropic" |} = "anthropic"
            ∧ generate (W := world_acme) {| provider := "anthropic" |}
                prospect_ann config_bob
              = _generate_anthropic (W := world_acme) prompt)).
Proof.
  apply (generator_provider_invariant (W := world_acme) "auto").
  vm_compute. reflexivity.
Defined.

(** X5 with the site down. *)
Lemma research_keeps_prospect_on_error_run :
  (research (W := world_offline) (@ProspectResearcher__init__ world_offline)
     prospect_ann []).1 = prospect_ann.
Proof.
  apply (research_keeps_prospect_on_error (W := world_offline) _ _ _ acme_url
           (LibraryError "ConnectionError" "Connection refused")).
  - reflexivity.
  - reflexivity.
Defined.

(** X6 on a prospect with a website. *)
Lemma research_requests_run :
  (research (W := world_acme) (@ProspectResearcher__init__ world_acme)
     prospect_ann []).2
  = [] ++ [get_request (session (@ProspectResearcher__init__ world_acme))
             acme_url 10].
Proof.
  apply (research_requests (W := world_acme)
           (@ProspectResearcher__init__ world_acme) prospect_ann []).
  - reflexivity.
  - discriminate.
Defined.

(** X7 on the Acme page. *)
Lemma tech_hints_at_most_six_run : (length ["React"; "Stripe"] ≤ 6)%nat.
Proof.
  apply (tech_hints_at_most_six (W := world_acme)
           (@ProspectResearcher__init__ world_acme) acme_url []).
  - exact remove_dups_enumerates.
  - vm_compute. reflexivity.
Defined.

(** X8 on the Acme page. *)
Lemma research_then_prompt_run :
  ∃ tech_stack,
    str_format TEMPLATE_PROMPT
      (prompt_kwargs
         (research (W := world_acme) (@ProspectResearcher__init__ world_acme)
            prospect_ann []).1 config_bob)
    = Ok (filled_prompt "Ann" "Acme" "Unknown" "Anvils for every need"
            tech_stack "Bob" "Hammers Inc" "lighter hammers" "quick call"
            "professional-friendly" "short").
Proof.
  apply (research_then_prompt (W := world_acme)
           (@ProspectResearcher__init__ world_acme) prospect_ann config_bob []
           acme_url "Anvils for every need").
  - reflexivity.
  - discriminate.
  - vm_compute. reflexivity.
  - discriminate.
Defined.

(** X9: one more key in the email, and another company, role and
    profile for the same name and address. *)
Lemma format_email_frame_run :
  format_email (<["cc" := PyStr "bob@hammers.example"]> email_full)
    prospect_ann_elsewhere
  = format_email email_full prospect_ann.
Proof. apply format_email_frame; (discriminate || reflexivity). Defined.

(** X10 on a prospect whose optional fields are empty strings, with an
    email that has a follow-up. *)
Lemma empty_counts_as_missing_run :
  str_format TEMPLATE_PROMPT (prompt_kwargs prospect_blank config_bob)
  = Ok (filled_prompt "Ann" "Acme" "Unknown" "Unknown" "Unknown"
          "Bob" "Hammers Inc" "lighter hammers" "quick call"
          "professional-friendly" "short")
  ∧ format_email email_full prospect_blank
    = Ok (rendered_email "Ann" "email@example.com" "Lighter hammers"
            "Hi Ann" "Any thoughts?").
Proof.
  destruct (empty_counts_as_missing prospect_blank config_bob
              email_full (PyStr "Lighter hammers") "Hi Ann")
    as (r & c & t & a & f & Hp & Hf & Hr & Hc & Ht & Ha & _ & Hfollow).
  - vm_compute. reflexivity.
  - vm_compute. reflexivity.
  - intros v Hv. vm_compute in Hv. injection Hv as <-. by eexists.
  - rewrite Hp, Hf, (Hr eq_refl), (Hc eq_refl), (Ht eq_refl), (Ha eq_refl),
      (Hfollow "Any thoughts?"); [split; reflexivity|].
    vm_compute. reflexivity.
Defined.

(** X11 on a run with a website. *)
Lemma main_requests_run :
  requests (main (W := world_online) (D := decoded_online) args_ann)
  = [get_request (session (@ProspectResearcher__init__ world_online))
       acme_url 10].
Proof.
  apply (main_requests (W := world_online) (D := decoded_online) args_ann).
  - reflexivity.
  - discriminate.
  - reflexivity.
Defined.

(** X12 on a run without any key. *)
Lemma main_generation_failure_run :
  stdout (main (W := world_no_key) (D := decoded_no_key) args_ann) = []
  ∧ status (main (W := world_no_key) (D := decoded_no_key) args_ann)
    = Exited 1
  ∧ last (stderr (main (W := world_no_key) (D := decoded_no_key) args_ann))
    = Some "Error: No AI provider. Set OPENAI_API_KEY or ANTHROPIC_API_KEY".
Proof.
  apply (main_generation_failure (W := world_no_key) (D := decoded_no_key)
           args_ann
           (RuntimeError
              "No AI provider. Set OPENAI_API_KEY or ANTHROPIC_API_KEY")).
  left. vm_compute. reflexivity.
Defined.

(** X14 on an answer without a body, shown as JSON. *)
Lemma main_json_never_crashes_run :
  status (main (W := world_no_body) (D := decoded_no_body) args_ann_json)
  = Returned
  ∨ status (main (W := world_no_body) (D := decoded_no_body) args_ann_json)
    = Exited 1.
Proof.
  apply (main_json_never_crashes (W := world_no_body) (D := decoded_no_body)).
  reflexivity.
Defined.


(** X16 with the site down. *)
Lemma main_survives_failed_fetch_run :
  stdout (main (W := world_offline) (D := decoded_offline) args_ann)
  = stdout (main (W := world_offline) (D := decoded_offline)
              (skip_research args_ann))
  ∧ status (main (W := world_offline) (D := decoded_offline) args_ann)
    = status (main (W := world_offline) (D := decoded_offline)
                (skip_research args_ann)).
Proof.
  apply (main_survives_failed_fetch (W := world_offline)
           (D := decoded_offline) args_ann acme_url
           (LibraryError "ConnectionError" "Connection refused")).
  - reflexivity.
  - reflexivity.
Defined.
